(** * Warbler: request handlers of [app.py] over a relational store

    A shallow embedding of the Flask application in [app.py].  Every view
    function becomes a function from the request and the world (database,
    session cookie, flash queue) to a response and the world left behind.
    The tables are finite maps keyed by primary key, the two association
    tables are finite sets of pairs (composite primary keys), the session is
    a dictionary from strings to ids, as in the source. *)

From stdpp Require Import gmap strings list fin_maps fin_sets sorting pretty.

Local Open Scope Z_scope.

(** ** Data model *)

(** A row of [users].  The primary key is the key of the table below, so
    Python's [user.id] is that key. *)
Record User := mkUser {
  username : string;
  email : string;
  password : string;
  image_url : string;
  header_image_url : string;
  bio : option string;
  location : option string
}.

(** A row of [messages]; [user_id] is the owning user. *)
Record Message := mkMessage {
  text : string;
  timestamp : Z;
  user_id : Z
}.

Global Instance User_eq_dec : EqDecision User.
Proof. solve_decision. Defined.

Global Instance Message_eq_dec : EqDecision Message.
Proof. solve_decision. Defined.

(** The database: [follows] holds pairs (user_following_id,
    user_being_followed_id), [likes] pairs (user_id, message_id). *)
Record Store := mkStore {
  users : gmap Z User;
  messages : gmap Z Message;
  follows : gset (Z * Z);
  likes : gset (Z * Z)
}.

(** What survives a request: the committed database, the session and the
    queue of flashed (message, category) pairs. *)
Record World := mkWorld {
  db : Store;
  session : gmap string Z;
  flashes : list (string * string)
}.

(** The part of a request the handlers read.  [is_submitted] and [validate]
    are the two halves of Flask-WTF's [validate_on_submit] for the form class
    the handler instantiates; the [f_*] fields are the [form.<field>.data]
    values, [callback] the hidden field of [CSRFProtectForm], [now] the
    server clock. *)
Record Request := mkRequest {
  is_submitted : bool;
  validate : bool;
  callback : string;
  f_username : string;
  f_password : string;
  f_email : string;
  f_image_url : string;
  f_header_image_url : string;
  f_bio : string;
  f_text : string;
  now : Z
}.

Definition validate_on_submit (req : Request) : bool :=
  is_submitted req && validate req.

(** What a template is rendered with. *)
Inductive Context :=
| CtxForm (fields : list (string * string))
| CtxMessages (msgs : list (Z * Message))
| CtxMessage (msg : Z * Message)
| CtxUser (user : Z * User)
| CtxUsers (us : list (Z * User)).

(** How a view function ends: a rendered page, a redirect, or an exception
    that leaves the view ([Unauthorized] and [NotFound] are werkzeug's HTTP
    exceptions, the other two are not handled anywhere and become a 500).
    A rendered page is the name of the template with the values passed to
    it; the templates themselves are not part of the embedding. *)
Inductive Response :=
| render_template (template : string) (ctx : Context)
| redirect (target : string)
| raise_Unauthorized
| raise_NotFound
| raise_ValueError
| raise_IntegrityError.

Definition status_code (r : Response) : Z :=
  match r with
  | render_template _ _ => 200
  | redirect _ => 302
  | raise_Unauthorized => 401
  | raise_NotFound => 404
  | raise_ValueError => 500
  | raise_IntegrityError => 500
  end.

Definition is_redirect (r : Response) : bool :=
  match r with redirect _ => true | _ => false end.

Definition CURR_USER_KEY : string := "curr_user".

(** ** Session and flash queue *)

(** [add_user_to_g]: the current user is the row whose key is stored in the
    session, [None] when the session has no key (or the row is gone). *)
Definition add_user_to_g (w : World) : option (Z * User) :=
  match session w !! CURR_USER_KEY with
  | Some uid => (λ u, (uid, u)) <$> users (db w) !! uid
  | None => None
  end.

Definition do_login (uid : Z) (w : World) : World :=
  mkWorld (db w) (<[CURR_USER_KEY := uid]> (session w)) (flashes w).

Definition do_logout (w : World) : World :=
  match session w !! CURR_USER_KEY with
  | Some _ => mkWorld (db w) (delete CURR_USER_KEY (session w)) (flashes w)
  | None => w
  end.

(** [flash(message, category)]; the category defaults to "message". *)
Definition flash (msg category : string) (w : World) : World :=
  mkWorld (db w) (session w) (flashes w ++ [(msg, category)]).

Definition set_db (s : Store) (w : World) : World :=
  mkWorld s (session w) (flashes w).

(** The f-string rendering of an integer id. *)
Definition fmt (n : Z) : string := pretty n.

(** ** Queries and store updates *)

(** [g.user.following]: the ids of the users that [uid] follows, through the
    association table. *)
Definition following (s : Store) (uid : Z) : list Z :=
  filter (λ v, is_Some (users s !! v))
         (elements (filter (λ e : Z * Z, e.1 = uid) (follows s))).*2.

(** The filter of the homepage query: the message is by the current user or
    by one of the users in [following]. *)
Definition in_feed (s : Store) (uid : Z) (row : Z * Message) : Prop :=
  user_id row.2 = uid ∨ user_id row.2 ∈ following s uid.

Global Instance in_feed_dec s uid row : Decision (in_feed s uid row).
Proof. unfold in_feed. apply _. Defined.

(** [order_by(Message.timestamp.desc())]. *)
Definition newer_first (a b : Z * Message) : Prop :=
  timestamp b.2 ≤ timestamp a.2.

Global Instance newer_first_dec : RelDecision newer_first.
Proof. intros a b. unfold newer_first. apply _. Defined.

(** The homepage query: filter, order by timestamp descending, limit 100. *)
Definition feed (s : Store) (uid : Z) : list (Z * Message) :=
  take 100 (merge_sort newer_first
              (filter (in_feed s uid) (map_to_list (messages s)))).

(** The unique constraints on [users.username] and [users.email]: does a row
    other than [self] already hold [u]'s username or email? *)
Definition unique_violation (us : gmap Z User) (self : option Z) (u : User) : bool :=
  existsb (λ row : Z * User,
             bool_decide (Some row.1 ≠ self) &&
             (bool_decide (username row.2 = username u) ||
              bool_decide (email row.2 = email u)))
          (map_to_list us).

(** Usernames identify rows: the unique constraint on [users.username]. *)
Definition unique_usernames (s : Store) : Prop :=
  ∀ i j u v, users s !! i = Some u → users s !! j = Some v →
             username u = username v → i = j.

(** [db.session.add(user); db.session.commit()] for a pending user: the
    insert fails with IntegrityError ([None]) when a unique constraint is
    violated, otherwise the row gets a fresh primary key. *)
Definition commit_new_user (u : User) (s : Store) : option (Z * Store) :=
  if unique_violation (users s) None u then None
  else let uid := fresh (dom (users s)) in
       Some (uid, mkStore (<[uid := u]> (users s)) (messages s) (follows s) (likes s)).

(** Commit of an update of the row [uid]. *)
Definition commit_user_update (uid : Z) (u : User) (s : Store) : option Store :=
  if unique_violation (users s) (Some uid) u then None
  else Some (mkStore (<[uid := u]> (users s)) (messages s) (follows s) (likes s)).

(** [g.user.messages.append(msg); db.session.commit()]. *)
Definition commit_new_message (m : Message) (s : Store) : Z * Store :=
  let mid := fresh (dom (messages s)) in
  (mid, mkStore (users s) (<[mid := m]> (messages s)) (follows s) (likes s)).

Definition set_follows (f : gset (Z * Z)) (s : Store) : Store :=
  mkStore (users s) (messages s) f (likes s).

Definition set_likes (l : gset (Z * Z)) (s : Store) : Store :=
  mkStore (users s) (messages s) (follows s) l.

(** Modelled from the spec: the cascade of [db.session.delete(msg)], declared
    in models.py; a Like-edge never references a nonexistent Message, so the
    edges of the deleted message go with it. *)
Definition delete_message (mid : Z) (s : Store) : Store :=
  mkStore (users s) (delete mid (messages s)) (follows s)
          (filter (λ e : Z * Z, e.2 ≠ mid) (likes s)).

(** Modelled from the spec: the cascade of [db.session.delete(g.user)],
    declared in models.py; deleting a User removes the owned Messages and
    every Follow-edge and Like-edge that references the user or one of
    those messages. *)
Definition delete_user_row (uid : Z) (s : Store) : Store :=
  let kept := filter (λ row : Z * Message, user_id row.2 ≠ uid) (messages s) in
  mkStore (delete uid (users s)) kept
          (filter (λ e : Z * Z, e.1 ≠ uid ∧ e.2 ≠ uid) (follows s))
          (filter (λ e : Z * Z, e.1 ≠ uid ∧ is_Some (kept !! e.2)) (likes s)).

(** The fields a form is rendered with. *)
Definition signup_fields (req : Request) : list (string * string) :=
  [("username", f_username req); ("password", f_password req);
   ("email", f_email req); ("image_url", f_image_url req)].

Definition login_fields (req : Request) : list (string * string) :=
  [("username", f_username req); ("password", f_password req)].

(** ** The view functions *)

Section App.

(** bcrypt's two functions and the two default sentinels of models.py. *)
Variable generate_password_hash : string → string.
Variable check_password_hash : string → string → bool.
Variable DEFAULT_IMAGE : string.
Variable DEFAULT_HEADER : string.

(** Modelled from the spec: [User.signup] of models.py, which hashes the
    plaintext password with a salted one-way hash function and returns a
    pending (uncommitted) User; an unset image falls back to the default
    sentinels. *)
Definition User_signup (username password email : string)
    (image_url : option string) : User :=
  mkUser username email (generate_password_hash password)
         (default DEFAULT_IMAGE image_url) DEFAULT_HEADER None None.

(** Modelled from the spec: [User.authenticate] of models.py, which looks up
    by exact username, verifies the supplied password against the stored
    hash, and returns the User on success, otherwise the failure sentinel
    ([None] here, [False] in [test_authenticate_fails]). *)
Definition User_authenticate (s : Store) (username_ password_ : string)
    : option (Z * User) :=
  match head (filter (λ row : Z * User, username row.2 = username_)
                     (map_to_list (users s))) with
  | Some row =>
      if check_password_hash (password row.2) password_ then Some row else None
  | None => None
  end.

Definition signup (req : Request) (w : World) : Response * World :=
  if validate_on_submit req then
    match commit_new_user
            (User_signup (f_username req) (f_password req) (f_email req)
               (if decide (f_image_url req = "") then None
                else Some (f_image_url req)))
            (db w) with
    | None =>
        (render_template "users/signup.html" (CtxForm (signup_fields req)),
         flash "Username already taken" "danger" w)
    | Some (uid, s') => (redirect "/", do_login uid (set_db s' w))
    end
  else (render_template "users/signup.html" (CtxForm (signup_fields req)), w).

Definition login (req : Request) (w : World) : Response * World :=
  if validate_on_submit req then
    match User_authenticate (db w) (f_username req) (f_password req) with
    | Some (uid, u) =>
        (redirect "/",
         flash ("Hello, " +:+ username u +:+ "!") "success" (do_login uid w))
    | None =>
        (render_template "users/login.html" (CtxForm (login_fields req)),
         flash "Invalid credentials." "danger" w)
    end
  else (render_template "users/login.html" (CtxForm (login_fields req)), w).

Definition logout (req : Request) (w : World) : Response * World :=
  if negb (validate_on_submit req) then (raise_Unauthorized, w)
  else (redirect "/", flash "Successfully logged out!" "message" (do_logout w)).

Definition add_follow (follow_id : Z) (req : Request) (w : World)
    : Response * World :=
  if negb (validate_on_submit req) then (raise_Unauthorized, w)
  else match add_user_to_g w with
       | None => (redirect "/", flash "Access unauthorized." "danger" w)
       | Some (uid, _) =>
           match users (db w) !! follow_id with
           | None => (raise_NotFound, w)
           | Some _ =>
               (redirect ("/users/" +:+ fmt uid +:+ "/following"),
                set_db (set_follows ({[(uid, follow_id)]} ∪ follows (db w)) (db w)) w)
           end
       end.

(** [User.query.get] gives [None] for an unknown id, and [list.remove]
    raises ValueError when its argument is not in the list. *)
Definition stop_following (follow_id : Z) (req : Request) (w : World)
    : Response * World :=
  if negb (validate_on_submit req) then (raise_Unauthorized, w)
  else match add_user_to_g w with
       | None => (redirect "/", flash "Access unauthorized." "danger" w)
       | Some (uid, _) =>
           match users (db w) !! follow_id with
           | None => (raise_ValueError, w)
           | Some _ =>
               if bool_decide (follow_id ∈ following (db w) uid) then
                 (redirect ("/users/" +:+ fmt uid +:+ "/following"),
                  set_db (set_follows (follows (db w) ∖ {[(uid, follow_id)]}) (db w)) w)
               else (raise_ValueError, w)
           end
       end.

(** The form of the profile page: the submitted data on a submission, the
    attributes of [obj] otherwise. *)
Definition edit_fields (req : Request) (u : User) : list (string * string) :=
  let image := if is_submitted req then f_image_url req else image_url u in
  let header :=
    if is_submitted req then f_header_image_url req else header_image_url u in
  [("username", if is_submitted req then f_username req else username u);
   ("email", if is_submitted req then f_email req else email u);
   ("image_url", if decide (image = DEFAULT_IMAGE) then "" else image);
   ("header_image_url", if decide (header = DEFAULT_HEADER) then "" else header);
   ("bio", if is_submitted req then f_bio req else default "" (bio u))].

Definition edited (req : Request) (u : User) : User :=
  mkUser (f_username req) (f_email req) (password u)
         (if decide (f_image_url req = "") then DEFAULT_IMAGE
          else f_image_url req)
         (if decide (f_header_image_url req = "") then DEFAULT_HEADER
          else f_header_image_url req)
         (Some (f_bio req)) (location u).

Definition profile (req : Request) (w : World) : Response * World :=
  match add_user_to_g w with
  | None => (raise_Unauthorized, w)
  | Some (uid, user) =>
      if validate_on_submit req then
        match User_authenticate (db w) (username user) (f_password req) with
        | None => (redirect "/", flash "Incorrect password." "message" w)
        | Some _ =>
            match commit_user_update uid (edited req user) (db w) with
            | None => (raise_IntegrityError, w)
            | Some s' => (redirect ("/users/" +:+ fmt uid), set_db s' w)
            end
        end
      else (render_template "users/edit.html" (CtxForm (edit_fields req user)), w)
  end.

Definition delete_user (req : Request) (w : World) : Response * World :=
  if negb (validate_on_submit req) then (raise_Unauthorized, w)
  else match add_user_to_g w with
       | None => (redirect "/", flash "Access unauthorized." "danger" w)
       | Some (uid, _) =>
           let w1 := do_logout w in
           (redirect "/signup", set_db (delete_user_row uid (db w1)) w1)
       end.

Definition messages_add (req : Request) (w : World) : Response * World :=
  match add_user_to_g w with
  | None => (redirect "/", flash "Access unauthorized." "danger" w)
  | Some (uid, _) =>
      if validate_on_submit req then
        (redirect ("/users/" +:+ fmt uid),
         set_db (commit_new_message (mkMessage (f_text req) (now req) uid) (db w)).2 w)
      else (render_template "messages/new.html" (CtxForm [("text", f_text req)]), w)
  end.

Definition messages_show (message_id : Z) (w : World) : Response * World :=
  match messages (db w) !! message_id with
  | None => (raise_NotFound, w)
  | Some m => (render_template "messages/show.html" (CtxMessage (message_id, m)), w)
  end.

Definition messages_destroy (message_id : Z) (req : Request) (w : World)
    : Response * World :=
  if negb (validate_on_submit req) then (raise_Unauthorized, w)
  else match add_user_to_g w with
       | None => (redirect "/", flash "Access unauthorized." "danger" w)
       | Some (uid, _) =>
           match messages (db w) !! message_id with
           | None => (raise_NotFound, w)
           | Some msg =>
               if bool_decide (user_id msg ≠ uid) then (raise_Unauthorized, w)
               else (redirect ("/users/" +:+ fmt uid),
                     set_db (delete_message message_id (db w)) w)
           end
       end.

Definition like_message (message_id : Z) (req : Request) (w : World)
    : Response * World :=
  if negb (validate_on_submit req) then (raise_Unauthorized, w)
  else match add_user_to_g w with
       | None => (redirect "/", flash "Access unauthorized." "danger" w)
       | Some (uid, _) =>
           match messages (db w) !! message_id with
           | None => (raise_NotFound, w)
           | Some message =>
               if bool_decide (user_id message = uid) then
                 (redirect (callback req),
                  flash "You can't like your own warbles!" "message" w)
               else
                 (redirect (callback req),
                  set_db (set_likes ({[(uid, message_id)]} ∪ likes (db w)) (db w)) w)
           end
       end.

Definition unlike_message (message_id : Z) (req : Request) (w : World)
    : Response * World :=
  if negb (validate_on_submit req) then (raise_Unauthorized, w)
  else match add_user_to_g w with
       | None => (redirect "/", flash "Access unauthorized." "danger" w)
       | Some (uid, _) =>
           (redirect (callback req),
            set_db (set_likes (likes (db w) ∖ {[(uid, message_id)]}) (db w)) w)
       end.

Definition homepage (w : World) : Response * World :=
  match add_user_to_g w with
  | Some (uid, _) =>
      (render_template "home.html" (CtxMessages (feed (db w) uid)), w)
  | None =>
      (render_template "home-anon.html"
         (CtxForm [("username", "demo"); ("password", "123123")]), w)
  end.

(** The routes that change state behind a [CSRFProtectForm]. *)
Inductive Endpoint :=
| Logout
| AddFollow (follow_id : Z)
| StopFollowing (follow_id : Z)
| DeleteUser
| MessagesDestroy (message_id : Z)
| LikeMessage (message_id : Z)
| UnlikeMessage (message_id : Z).

Definition dispatch (e : Endpoint) : Request → World → Response * World :=
  match e with
  | Logout => logout
  | AddFollow i => add_follow i
  | StopFollowing i => stop_following i
  | DeleteUser => delete_user
  | MessagesDestroy i => messages_destroy i
  | LikeMessage i => like_message i
  | UnlikeMessage i => unlike_message i
  end.

End App.

(** ** A small database to run the view functions on *)

Module Sample.

(** A stand-in for bcrypt: the stored hash records the password. *)
Definition hash (p : string) : string := "$2b$" +:+ p.

Definition check (h p : string) : bool := bool_decide (h = hash p).

Definition default_image : string := "/static/images/default-pic.png".

Definition default_header : string := "/static/images/warbler-hero.jpg".

Definition user1 : User :=
  mkUser "user1" "foo1@bar.com" (hash "FeL7f23#1") default_image
         default_header None None.

Definition user2 : User :=
  mkUser "user2" "foo2@bar.com" (hash "FeL7f23#1") default_image
         default_header None (Some "Oslo").

Definition user3 : User :=
  mkUser "user3" "foo3@bar.com" (hash "123123") default_image
         default_header (Some "hi") None.

(** Message 1 and 3 are by user 1, message 2 by user 2, message 4 by
    user 3. *)
Definition store : Store :=
  mkStore (list_to_map [(1, user1); (2, user2); (3, user3)])
          (list_to_map [(1, mkMessage "Hello World!" 10 1);
                        (2, mkMessage "second" 20 2);
                        (3, mkMessage "third" 30 1);
                        (4, mkMessage "fourth" 40 3)])
          {[(1, 2)]}
          {[(2, 1)]}.

(** User 1 is logged in. *)
Definition world : World := mkWorld store {[CURR_USER_KEY := 1]} [].

(** Nobody is logged in. *)
Definition anon_world : World := mkWorld store ∅ [].

(** A submission that validates, sent from the page [/users/2]. *)
Definition valid_post : Request :=
  mkRequest true true "/users/2" "user1" "FeL7f23#1" "new@bar.com" "" "" "bio"
            "New Message!" 50.

(** The same submission with a token that does not validate. *)
Definition forged_post : Request :=
  mkRequest true false "/users/2" "user1" "FeL7f23#1" "new@bar.com" "" "" "bio"
            "New Message!" 50.

End Sample.

(** ** The remaining view functions *)

Definition show_user (id : Z) (w : World) : Response * World :=
  match users (db w) !! id with
  | None => (raise_NotFound, w)
  | Some u => (render_template "users/show.html" (CtxUser (id, u)), w)
  end.

Definition show_following (id : Z) (w : World) : Response * World :=
  match add_user_to_g w with
  | None => (redirect "/", flash "Access unauthorized." "danger" w)
  | Some _ =>
      match users (db w) !! id with
      | None => (raise_NotFound, w)
      | Some u => (render_template "users/following.html" (CtxUser (id, u)), w)
      end
  end.

Definition show_followers (id : Z) (w : World) : Response * World :=
  match add_user_to_g w with
  | None => (redirect "/", flash "Access unauthorized." "danger" w)
  | Some _ =>
      match users (db w) !! id with
      | None => (raise_NotFound, w)
      | Some u => (render_template "users/followers.html" (CtxUser (id, u)), w)
      end
  end.

Definition show_likes (id : Z) (w : World) : Response * World :=
  match add_user_to_g w with
  | None => (redirect "/", flash "Access unauthorized." "danger" w)
  | Some _ =>
      match users (db w) !! id with
      | None => (raise_NotFound, w)
      | Some u => (render_template "users/likes.html" (CtxUser (id, u)), w)
      end
  end.

Section Routes.

Variable generate_password_hash : string → string.
Variable check_password_hash : string → string → bool.
Variable DEFAULT_IMAGE : string.
Variable DEFAULT_HEADER : string.

(** The database's LIKE operator: [like value pattern]. *)
Variable like : string → string → bool.

(** [search] is [request.args.get("q")]; Python's [not search] holds for a
    missing parameter and for the empty string. *)
Definition list_users (search : option string) (w : World) : Response * World :=
  match search with
  | None => (render_template "users/index.html" (CtxUsers (map_to_list (users (db w)))), w)
  | Some q =>
      if decide (q = "") then
        (render_template "users/index.html" (CtxUsers (map_to_list (users (db w)))), w)
      else
        (render_template "users/index.html"
           (CtxUsers (filter (λ row : Z * User,
                                like (username row.2) ("%" +:+ q +:+ "%") = true)
                             (map_to_list (users (db w))))), w)
  end.

(** Every route of the application with the arguments taken from the URL. *)
Inductive Route :=
| RSignup
| RLogin
| RLogout
| RListUsers (search : option string)
| RShowUser (id : Z)
| RShowFollowing (id : Z)
| RShowFollowers (id : Z)
| RShowLikes (id : Z)
| RAddFollow (follow_id : Z)
| RStopFollowing (follow_id : Z)
| RProfile
| RDeleteUser
| RMessagesAdd
| RMessagesShow (message_id : Z)
| RMessagesDestroy (message_id : Z)
| RLikeMessage (message_id : Z)
| RUnlikeMessage (message_id : Z)
| RHomepage.

Definition handle (r : Route) (req : Request) (w : World) : Response * World :=
  match r with
  | RSignup => signup generate_password_hash DEFAULT_IMAGE DEFAULT_HEADER req w
  | RLogin => login check_password_hash req w
  | RLogout => logout req w
  | RListUsers q => list_users q w
  | RShowUser i => show_user i w
  | RShowFollowing i => show_following i w
  | RShowFollowers i => show_followers i w
  | RShowLikes i => show_likes i w
  | RAddFollow i => add_follow i req w
  | RStopFollowing i => stop_following i req w
  | RProfile => profile check_password_hash DEFAULT_IMAGE DEFAULT_HEADER req w
  | RDeleteUser => delete_user req w
  | RMessagesAdd => messages_add req w
  | RMessagesShow i => messages_show i w
  | RMessagesDestroy i => messages_destroy i req w
  | RLikeMessage i => like_message i req w
  | RUnlikeMessage i => unlike_message i req w
  | RHomepage => homepage w
  end.

End Routes.

(** ** Integrity of the store *)

Definition unique_emails (s : Store) : Prop :=
  ∀ i j u v, users s !! i = Some u → users s !! j = Some v →
             email u = email v → i = j.

(** The constraints of the schema: unique usernames and emails, and every
    foreign key (owner of a message, both ends of a Follow-edge, both ends
    of a Like-edge) refers to a stored row. *)
Record integrity (s : Store) : Prop := mkIntegrity {
  int_usernames : unique_usernames s;
  int_emails : unique_emails s;
  int_owner : ∀ i m, messages s !! i = Some m → is_Some (users s !! user_id m);
  int_follows : ∀ a b, (a, b) ∈ follows s →
                       is_Some (users s !! a) ∧ is_Some (users s !! b);
  int_likes : ∀ a b, (a, b) ∈ likes s →
                     is_Some (users s !! a) ∧ is_Some (messages s !! b)
}.

(** The policy of [like_message]: nobody likes a message of their own. *)
Definition no_own_likes (s : Store) : Prop :=
  ∀ a b m, (a, b) ∈ likes s → messages s !! b = Some m → user_id m ≠ a.

(** The routes whose view starts with, or has after its CSRF guard, the
    block [if not g.user: flash("Access unauthorized.", "danger"); return
    redirect("/")]. *)
Definition login_required (r : Route) : bool :=
  match r with
  | RShowFollowing _ | RShowFollowers _ | RShowLikes _
  | RAddFollow _ | RStopFollowing _ | RDeleteUser
  | RMessagesAdd | RMessagesDestroy _ | RLikeMessage _ | RUnlikeMessage _ => true
  | _ => false
  end.

(** The routes that look their argument up with [get_or_404], and whether
    the row they ask for is missing. *)
Definition missing_target (s : Store) (r : Route) : bool :=
  match r with
  | RShowUser i | RShowFollowing i | RShowFollowers i | RShowLikes i
  | RAddFollow i => bool_decide (users s !! i = None)
  | RMessagesShow i | RMessagesDestroy i | RLikeMessage i =>
      bool_decide (messages s !! i = None)
  | _ => false
  end.

(** * Properties *)

(** ** The CSRF guard *)

(** Every guarded view function starts with the same two lines; when the
    form does not validate nothing else of the body runs. *)
Lemma dispatch_guard (e : Endpoint) (req : Request) (w : World) :
  validate_on_submit req = false →
  dispatch e req w = (raise_Unauthorized, w).
Proof.
  intros Hv.
  destruct e; simpl;
    unfold logout, add_follow, stop_following, delete_user, messages_destroy,
      like_message, unlike_message;
    rewrite Hv; reflexivity.
Qed.

(** C3: on each of the seven state-mutating endpoints (follow, unfollow,
    delete message, delete user, like, unlike, logout) a request whose
    CSRF-guard form does not validate ends in Unauthorized, HTTP 401, and not
    in a redirect, whichever endpoint it was sent to. *)
Theorem csrf_failure_is_unauthorized (e : Endpoint) (req : Request) (w : World) :
  validate_on_submit req = false →
  (dispatch e req w).1 = raise_Unauthorized ∧
  status_code (dispatch e req w).1 = 401 ∧
  is_redirect (dispatch e req w).1 = false.
Proof.
  intros Hv. rewrite (dispatch_guard e req w Hv). simpl. done.
Qed.

Lemma csrf_failure_is_unauthorized_witness :
  validate_on_submit Sample.forged_post = false ∧
  (dispatch (MessagesDestroy 1) Sample.forged_post Sample.world).1
    = raise_Unauthorized ∧
  status_code (dispatch (MessagesDestroy 1) Sample.forged_post Sample.world).1
    = 401 ∧
  is_redirect (dispatch (MessagesDestroy 1) Sample.forged_post Sample.world).1
    = false.
Proof.
  split; [reflexivity|].
  apply (csrf_failure_is_unauthorized (MessagesDestroy 1) Sample.forged_post
           Sample.world).
  reflexivity.
Defined.

(** An anonymous request that passes the guard is sent home, and the
    database is not touched. *)
Lemma dispatch_anonymous (e : Endpoint) (req : Request) (w : World) :
  validate_on_submit req = true →
  add_user_to_g w = None →
  (dispatch e req w).1 = redirect "/" ∧ db (dispatch e req w).2 = db w.
Proof.
  intros Hv Hg.
  destruct e; simpl;
    unfold logout, add_follow, stop_following, delete_user, messages_destroy,
      like_message, unlike_message;
    rewrite Hv, ?Hg; simpl; try done.
  split; [done|]. unfold do_logout. by destruct (session w !! CURR_USER_KEY).
Qed.

(** C8: on every state-mutating endpoint a request whose CSRF-guard form
    fails validation gets Unauthorized (401) before the current user is
    looked at and before any store operation: the database, the session and
    the flash queue are exactly as before the request, for a logged-in and
    for an anonymous requester alike, whereas an anonymous request with a
    valid form is redirected home. *)
Theorem csrf_failure_precedes_everything (e : Endpoint) (req : Request) (w : World) :
  validate_on_submit req = false →
  dispatch e req w = (raise_Unauthorized, w) ∧
  db (dispatch e req w).2 = db w ∧
  (add_user_to_g w = None →
   status_code (dispatch e req w).1 = 401 ∧
   ∀ req', validate_on_submit req' = true →
           (dispatch e req' w).1 = redirect "/").
Proof.
  intros Hv. rewrite (dispatch_guard e req w Hv). simpl.
  split_and!; [done..|].
  intros Hg. split; [done|].
  intros req' Hv'. by apply dispatch_anonymous.
Qed.

Lemma csrf_failure_precedes_everything_witness :
  validate_on_submit Sample.forged_post = false ∧
  dispatch DeleteUser Sample.forged_post Sample.anon_world
    = (raise_Unauthorized, Sample.anon_world).
Proof.
  split; [reflexivity|].
  apply (csrf_failure_precedes_everything DeleteUser Sample.forged_post
           Sample.anon_world).
  reflexivity.
Defined.

(** ** Deleting a message *)

Lemma delete_message_messages (mid : Z) (s : Store) :
  messages (delete_message mid s) = delete mid (messages s).
Proof. reflexivity. Qed.

(** C5: for a logged-in user [uid] and a message id [m], with a valid CSRF
    form, the delete-message endpoint answers 404 when no message [m]
    exists; answers Unauthorized (401) and leaves the world, the message
    included, unchanged when the message exists and is owned by another
    user; and deletes the message only when [uid] owns it. *)
Theorem messages_destroy_contract (m uid : Z) (user : User)
    (req : Request) (w : World) :
  validate_on_submit req = true →
  add_user_to_g w = Some (uid, user) →
  (messages (db w) !! m = None →
   messages_destroy m req w = (raise_NotFound, w) ∧
   status_code (messages_destroy m req w).1 = 404) ∧
  (∀ msg, messages (db w) !! m = Some msg → user_id msg ≠ uid →
   messages_destroy m req w = (raise_Unauthorized, w) ∧
   status_code (messages_destroy m req w).1 = 401 ∧
   messages (db (messages_destroy m req w).2) !! m = Some msg) ∧
  (∀ msg, messages (db w) !! m = Some msg → user_id msg = uid →
   (messages_destroy m req w).1 = redirect ("/users/" +:+ fmt uid) ∧
   messages (db (messages_destroy m req w).2) = delete m (messages (db w)) ∧
   messages (db (messages_destroy m req w).2) !! m = None ∧
   users (db (messages_destroy m req w).2) = users (db w)) ∧
  (∀ msg, messages (db w) !! m = Some msg →
   messages (db (messages_destroy m req w).2) !! m = None →
   user_id msg = uid).
Proof.
  intros Hv Hg. unfold messages_destroy. rewrite Hv, Hg. simpl.
  split_and!.
  - intros ->. done.
  - intros msg Hm Hne. rewrite Hm, bool_decide_eq_true_2 by done. done.
  - intros msg Hm Heq. rewrite Hm, bool_decide_eq_false_2 by (intros Hne; by apply Hne).
    simpl. split_and!; try done. apply lookup_delete_eq.
  - intros msg Hm. rewrite Hm. case_bool_decide as Hown; simpl.
    + rewrite Hm. done.
    + intros _. destruct (decide (user_id msg = uid)); done.
Qed.

Lemma messages_destroy_contract_witness :
  messages_destroy 2 Sample.valid_post Sample.world
    = (raise_Unauthorized, Sample.world) ∧
  messages (db (messages_destroy 1 Sample.valid_post Sample.world).2) !! 1
    = None.
Proof.
  pose proof (messages_destroy_contract 2 1 Sample.user1 Sample.valid_post
                Sample.world eq_refl eq_refl) as (_ & Hother & _ & _).
  pose proof (messages_destroy_contract 1 1 Sample.user1 Sample.valid_post
                Sample.world eq_refl eq_refl) as (_ & _ & Hown & _).
  split.
  - apply (Hother (mkMessage "second" 20 2)); [reflexivity | discriminate].
  - apply (Hown (mkMessage "Hello World!" 10 1)); reflexivity.
Defined.

(** ** Liking and unliking *)

(** C7: for a logged-in user [uid] and a message [m] that [uid] owns, the
    like endpoint with a valid CSRF form flashes a message and redirects
    (HTTP 302) to the callback path of the guard form; the database, and so
    the set of Like-edges, is unchanged, and no error status is returned. *)
Theorem like_own_message_rejected (m uid : Z) (user : User) (msg : Message)
    (req : Request) (w : World) :
  validate_on_submit req = true →
  add_user_to_g w = Some (uid, user) →
  messages (db w) !! m = Some msg →
  user_id msg = uid →
  like_message m req w
    = (redirect (callback req),
       flash "You can't like your own warbles!" "message" w) ∧
  status_code (like_message m req w).1 = 302 ∧
  db (like_message m req w).2 = db w ∧
  likes (db (like_message m req w).2) = likes (db w) ∧
  flashes (like_message m req w).2
    = flashes w ++ [("You can't like your own warbles!", "message")].
Proof.
  intros Hv Hg Hm Hown. unfold like_message.
  rewrite Hv, Hg, Hm. simpl.
  rewrite bool_decide_eq_true_2 by done. done.
Qed.

Lemma like_own_message_rejected_witness :
  (like_message 3 Sample.valid_post Sample.world).1 = redirect "/users/2" ∧
  (1, 3) ∉ likes (db (like_message 3 Sample.valid_post Sample.world).2).
Proof.
  pose proof (like_own_message_rejected 3 1 Sample.user1
                (mkMessage "third" 30 1) Sample.valid_post Sample.world
                eq_refl eq_refl eq_refl eq_refl) as (Hr & _ & _ & Hl & _).
  split.
  - rewrite Hr. reflexivity.
  - rewrite Hl. simpl. rewrite not_elem_of_singleton. discriminate.
Defined.

Lemma difference_singleton_absent (e : Z * Z) (X : gset (Z * Z)) :
  e ∉ X → X ∖ {[e]} = X.
Proof.
  intros Habs. apply set_eq. intros x.
  rewrite elem_of_difference, elem_of_singleton.
  split; [by intros [? _] | intros Hx; split; [done | by intros ->]].
Qed.

(** C9: for a logged-in user [uid] and any message id [m], whether or not a
    message [m] exists and whether or not [uid] has liked it, the unlike
    endpoint with a valid CSRF form redirects to the callback path of the
    guard form and never answers 404; it removes the Like-edge [(uid, m)]
    when present and nothing else, and leaves the world unchanged when the
    edge is absent. *)
Theorem unlike_message_contract (m uid : Z) (user : User)
    (req : Request) (w : World) :
  validate_on_submit req = true →
  add_user_to_g w = Some (uid, user) →
  (unlike_message m req w).1 = redirect (callback req) ∧
  status_code (unlike_message m req w).1 = 302 ∧
  status_code (unlike_message m req w).1 ≠ 404 ∧
  likes (db (unlike_message m req w).2) = likes (db w) ∖ {[(uid, m)]} ∧
  (∀ e, e ∈ likes (db (unlike_message m req w).2) ↔
        e ∈ likes (db w) ∧ e ≠ (uid, m)) ∧
  users (db (unlike_message m req w).2) = users (db w) ∧
  messages (db (unlike_message m req w).2) = messages (db w) ∧
  follows (db (unlike_message m req w).2) = follows (db w) ∧
  session (unlike_message m req w).2 = session w ∧
  flashes (unlike_message m req w).2 = flashes w ∧
  ((uid, m) ∉ likes (db w) → (unlike_message m req w).2 = w).
Proof.
  intros Hv Hg. unfold unlike_message. rewrite Hv, Hg. simpl.
  split_and!; try done.
  - intros e. set_solver.
  - intros Habs. unfold set_db, set_likes.
    rewrite (difference_singleton_absent _ _ Habs).
    by destruct w as [[] ? ?].
Qed.

Lemma unlike_message_contract_witness :
  (unlike_message 42000 Sample.valid_post Sample.world).1
    = redirect "/users/2" ∧
  likes (db (unlike_message 42000 Sample.valid_post Sample.world).2)
    = likes Sample.store ∖ {[(1, 42000)]}.
Proof.
  pose proof (unlike_message_contract 42000 1 Sample.user1 Sample.valid_post
                Sample.world eq_refl eq_refl) as (Hr & _ & _ & Hl & _).
  split; [exact Hr | exact Hl].
Defined.

(** ** Editing the profile *)

Lemma commit_user_update_Some (uid : Z) (u : User) (s s' : Store) :
  commit_user_update uid u s = Some s' →
  users s' = <[uid := u]> (users s) ∧ messages s' = messages s ∧
  follows s' = follows s ∧ likes s' = likes s.
Proof.
  unfold commit_user_update.
  destruct (unique_violation _ _ _); [done|]. by intros [= <-].
Qed.

(** C10: when the edit-profile operation commits (the view redirects to the
    user's page), the row of the current user has the submitted username,
    email, image_url, header_image_url and bio and its old password hash and
    location; every other row of [users], and the messages, Follow-edges and
    Like-edges, the session and the flash queue are unchanged.  The password
    is verified against the username the user had before the edit: when that
    verification fails nothing is saved. *)
Theorem profile_edit_frame (check : string → string → bool)
    (default_image default_header : string)
    (uid : Z) (user : User) (req : Request) (w : World) :
  add_user_to_g w = Some (uid, user) →
  validate_on_submit req = true →
  users (db w) !! uid = Some user ∧
  (User_authenticate check (db w) (username user) (f_password req) = None →
   profile check default_image default_header req w
     = (redirect "/", flash "Incorrect password." "message" w)) ∧
  ((profile check default_image default_header req w).1
     = redirect ("/users/" +:+ fmt uid) →
   is_Some (User_authenticate check (db w) (username user) (f_password req)) ∧
   ∃ user',
     users (db (profile check default_image default_header req w).2)
       = <[uid := user']> (users (db w)) ∧
     username user' = f_username req ∧
     email user' = f_email req ∧
     image_url user'
       = (if decide (f_image_url req = "") then default_image
          else f_image_url req) ∧
     header_image_url user'
       = (if decide (f_header_image_url req = "") then default_header
          else f_header_image_url req) ∧
     bio user' = Some (f_bio req) ∧
     password user' = password user ∧
     location user' = location user ∧
     (∀ j, j ≠ uid →
        users (db (profile check default_image default_header req w).2) !! j
          = users (db w) !! j) ∧
     messages (db (profile check default_image default_header req w).2)
       = messages (db w) ∧
     follows (db (profile check default_image default_header req w).2)
       = follows (db w) ∧
     likes (db (profile check default_image default_header req w).2)
       = likes (db w) ∧
     session (profile check default_image default_header req w).2 = session w ∧
     flashes (profile check default_image default_header req w).2 = flashes w).
Proof.
  intros Hg Hv. split_and!.
  - unfold add_user_to_g in Hg.
    destruct (session w !! CURR_USER_KEY) as [k|]; [|done].
    destruct (users (db w) !! k) as [u|] eqn:Hk; simpl in Hg; [|done].
    by simplify_eq.
  - intros Hauth. unfold profile. by rewrite Hg, Hv, Hauth.
  - unfold profile. rewrite Hg, Hv.
    destruct (User_authenticate _ _ _ _) as [row|]; [|by intros [=]].
    destruct (commit_user_update _ _ _) as [s'|] eqn:Hc; [|by intros [=]].
    intros _. split; [by eexists|].
    apply commit_user_update_Some in Hc as (Hu & Hm & Hf & Hl).
    exists (edited default_image default_header req user). simpl.
    split_and!; try done.
    intros j Hj. rewrite Hu. by apply lookup_insert_ne.
Qed.

Lemma profile_edit_frame_witness :
  (profile Sample.check Sample.default_image Sample.default_header
     Sample.valid_post Sample.world).1 = redirect "/users/1" ∧
  is_Some (User_authenticate Sample.check Sample.store "user1" "FeL7f23#1").
Proof.
  split; [reflexivity|].
  pose proof (profile_edit_frame Sample.check Sample.default_image
                Sample.default_header 1 Sample.user1 Sample.valid_post
                Sample.world eq_refl eq_refl) as (_ & _ & Hcommit).
  apply Hcommit. reflexivity.
Defined.

(** ** The homepage feed *)

Global Instance newer_first_total : Total newer_first.
Proof. intros a b. unfold newer_first. lia. Qed.

Global Instance newer_first_trans : Transitive newer_first.
Proof. intros a b c. unfold newer_first. lia. Qed.

(** [following] lists the users at the far end of a Follow-edge that starts
    at [uid]. *)
Lemma elem_of_following (s : Store) (uid v : Z) :
  v ∈ following s uid ↔ (uid, v) ∈ follows s ∧ is_Some (users s !! v).
Proof.
  unfold following. rewrite list_elem_of_filter, list_elem_of_fmap. split.
  - intros [Hv [[a b] [-> Hin]]].
    apply elem_of_elements, elem_of_filter in Hin as [Ha Hin].
    simpl in *. by subst.
  - intros [Hin Hv]. split; [done|]. exists (uid, v). split; [done|].
    by apply elem_of_elements, elem_of_filter.
Qed.

(** What [limit n] leaves out of an ordered result comes after everything
    it keeps, and is left out only when the limit is reached. *)
Lemma take_sorted_cutoff {A} (R : relation A) (n : nat) (l : list A) (x : A) :
  StronglySorted R l → x ∈ l →
  x ∈ take n l ∨ (length (take n l) = n ∧ ∀ y, y ∈ take n l → R y x).
Proof.
  intros Hs Hx. pose proof (take_drop n l) as Htd.
  rewrite <-Htd in Hx. apply elem_of_app in Hx as [Hx|Hx]; [by left|right].
  split.
  - apply length_take_le. destruct (decide (n ≤ length l)%nat); [done|].
    rewrite drop_ge in Hx by lia. by apply elem_of_nil in Hx.
  - intros y Hy. rewrite <-Htd in Hs.
    by apply (StronglySorted_app_1_elem_of R (take n l) (drop n l)).
Qed.

Lemma feed_elem_of (s : Store) (uid : Z) (row : Z * Message) :
  row ∈ merge_sort newer_first (filter (in_feed s uid) (map_to_list (messages s)))
  ↔ messages s !! row.1 = Some row.2 ∧ in_feed s uid row.
Proof.
  rewrite merge_sort_Permutation, list_elem_of_filter.
  destruct row as [i m]. rewrite elem_of_map_to_list. simpl. tauto.
Qed.

(** C1: for a logged-in user [uid] the homepage renders a list of messages
    in which every message is stored and is owned by [uid] or by a user
    [uid] follows (so no message of another, non-followed user appears);
    the list is ordered by timestamp descending, has no repetition and at
    most 100 entries; and a stored message of [uid] or of a followed user
    is missing from it only when the list is full with 100 messages that
    are all at least as recent. *)
Theorem homepage_feed (uid : Z) (user : User) (w : World) :
  add_user_to_g w = Some (uid, user) →
  ∃ msgs,
    homepage w = (render_template "home.html" (CtxMessages msgs), w) ∧
    (∀ i m, (i, m) ∈ msgs →
       messages (db w) !! i = Some m ∧
       (user_id m = uid ∨
        ((uid, user_id m) ∈ follows (db w) ∧
         is_Some (users (db w) !! user_id m)))) ∧
    StronglySorted (λ a b, timestamp b.2 ≤ timestamp a.2) msgs ∧
    NoDup msgs ∧
    (length msgs ≤ 100)%nat ∧
    (∀ i m, messages (db w) !! i = Some m →
       (user_id m = uid ∨
        ((uid, user_id m) ∈ follows (db w) ∧
         is_Some (users (db w) !! user_id m))) →
       (i, m) ∈ msgs ∨
       (length msgs = 100%nat ∧
        ∀ j m', (j, m') ∈ msgs → timestamp m ≤ timestamp m')).
Proof.
  intros Hg. exists (feed (db w) uid).
  unfold homepage. rewrite Hg. unfold feed.
  set (sorted := merge_sort newer_first
                   (filter (in_feed (db w) uid) (map_to_list (messages (db w))))).
  assert (Hsorted : StronglySorted newer_first sorted)
    by apply (StronglySorted_merge_sort newer_first).
  split_and!.
  - done.
  - intros i m Hin. apply subseteq_take in Hin.
    apply feed_elem_of in Hin as [Hm Hf]. split; [done|].
    unfold in_feed in Hf. rewrite elem_of_following in Hf. exact Hf.
  - pose proof (take_drop 100 sorted) as Htd. rewrite <-Htd in Hsorted.
    by apply StronglySorted_app_1_l in Hsorted.
  - apply (sublist_NoDup _ sorted); [|apply sublist_take].
    unfold sorted. rewrite merge_sort_Permutation.
    apply NoDup_filter, NoDup_map_to_list.
  - rewrite length_take. lia.
  - intros i m Hm Hvis.
    assert (Hin : (i, m) ∈ sorted).
    { apply feed_elem_of. split; [done|].
      unfold in_feed. rewrite elem_of_following. exact Hvis. }
    destruct (take_sorted_cutoff newer_first 100 sorted (i, m) Hsorted Hin)
      as [?|[Hlen Hle]]; [by left|right].
    split; [done|]. intros j m' Hj. exact (Hle (j, m') Hj).
Qed.

Lemma homepage_feed_witness :
  add_user_to_g Sample.world = Some (1, Sample.user1) ∧
  ∃ msgs,
    homepage Sample.world
      = (render_template "home.html" (CtxMessages msgs), Sample.world) ∧
    (∀ i m, (i, m) ∈ msgs → user_id m = 1 ∨ (1, user_id m) ∈ follows Sample.store).
Proof.
  split; [reflexivity|].
  destruct (homepage_feed 1 Sample.user1 Sample.world eq_refl)
    as (msgs & Hhome & Hsound & _).
  exists msgs. split; [exact Hhome|].
  intros i m Hin. destruct (Hsound i m Hin) as [_ [Hown|[Hfol _]]].
  - by left.
  - by right.
Defined.

(** ** Signup and the unique constraints *)

Lemma unique_violation_new (us : gmap Z User) (u : User) :
  unique_violation us None u = true ↔
  ∃ i v, us !! i = Some v ∧ (username v = username u ∨ email v = email u).
Proof.
  unfold unique_violation. rewrite existsb_exists. split.
  - intros ([i v] & Hin & Hrow). exists i, v.
    apply list_elem_of_In, elem_of_map_to_list in Hin. split; [done|].
    apply andb_true_iff in Hrow as [_ Hrow].
    apply orb_true_iff in Hrow as [Hrow|Hrow];
      apply bool_decide_eq_true in Hrow; auto.
  - intros (i & v & Hin & Hrow). exists (i, v). split.
    + by apply list_elem_of_In, elem_of_map_to_list.
    + apply andb_true_iff. split; [by apply bool_decide_eq_true|].
      apply orb_true_iff.
      destruct Hrow; [left|right]; by apply bool_decide_eq_true.
Qed.

(** C4: a signup (a valid submission of the signup form) whose username or
    email equals that of a persisted user fails at commit on the unique
    constraint; the handler catches the failure, flashes an error and
    renders the signup form again (HTTP 200); the tables are unchanged, so
    no second row is persisted, and the session is unchanged, so the
    requester is not logged in. *)
Theorem signup_duplicate_rejected (hash : string → string)
    (default_image default_header : string)
    (i : Z) (existing : User) (req : Request) (w : World) :
  validate_on_submit req = true →
  users (db w) !! i = Some existing →
  username existing = f_username req ∨ email existing = f_email req →
  commit_new_user
    (User_signup hash default_image default_header (f_username req)
       (f_password req) (f_email req)
       (if decide (f_image_url req = "") then None else Some (f_image_url req)))
    (db w) = None ∧
  signup hash default_image default_header req w
    = (render_template "users/signup.html" (CtxForm (signup_fields req)),
       flash "Username already taken" "danger" w) ∧
  status_code (signup hash default_image default_header req w).1 = 200 ∧
  db (signup hash default_image default_header req w).2 = db w ∧
  session (signup hash default_image default_header req w).2 = session w ∧
  flashes (signup hash default_image default_header req w).2
    = flashes w ++ [("Username already taken", "danger")].
Proof.
  intros Hv Hi Hdup.
  assert (Hfail : commit_new_user
            (User_signup hash default_image default_header (f_username req)
               (f_password req) (f_email req)
               (if decide (f_image_url req = "") then None
                else Some (f_image_url req)))
            (db w) = None).
  { unfold commit_new_user.
    rewrite (proj2 (unique_violation_new _ _)); [done|].
    exists i, existing. split; [done|]. exact Hdup. }
  split; [exact Hfail|].
  unfold signup. rewrite Hv, Hfail. done.
Qed.

Lemma signup_duplicate_rejected_witness :
  validate_on_submit Sample.valid_post = true ∧
  db (signup Sample.hash Sample.default_image Sample.default_header
        Sample.valid_post Sample.anon_world).2 = Sample.store ∧
  session (signup Sample.hash Sample.default_image Sample.default_header
             Sample.valid_post Sample.anon_world).2 = ∅.
Proof.
  split; [reflexivity|].
  pose proof (signup_duplicate_rejected Sample.hash Sample.default_image
                Sample.default_header 1 Sample.user1 Sample.valid_post
                Sample.anon_world eq_refl eq_refl (or_introl eq_refl))
    as (_ & _ & _ & Hdb & Hsess & _).
  split; [exact Hdb | exact Hsess].
Defined.

(** ** Authentication *)

Lemma head_filter_Some {A} (P : A → Prop) `{∀ x, Decision (P x)}
    (l : list A) (x : A) :
  head (filter P l) = Some x → x ∈ l ∧ P x.
Proof.
  intros Hh. apply head_Some_elem_of, list_elem_of_filter in Hh. tauto.
Qed.

Lemma head_filter_None {A} (P : A → Prop) `{∀ x, Decision (P x)} (l : list A) :
  head (filter P l) = None ↔ ∀ x, x ∈ l → ¬ P x.
Proof.
  rewrite head_None. split.
  - intros Hnil x Hx HP.
    assert (Hin : x ∈ filter P l) by by apply list_elem_of_filter.
    rewrite Hnil in Hin. by apply elem_of_nil in Hin.
  - intros Hall. destruct (filter P l) as [|y l'] eqn:Hf; [done|].
    assert (Hin : y ∈ filter P l) by (rewrite Hf; apply list_elem_of_here).
    apply list_elem_of_filter in Hin as [HP Hy]. by destruct (Hall y Hy).
Qed.

(** C6: [authenticate] returns the user whose username is exactly the given
    one and whose stored hash verifies the given password, and returns the
    failure sentinel, as a value, for every username that matches no row and
    every password that does not verify. *)
Theorem authenticate_spec (check : string → string → bool)
    (s : Store) (name pw : string) :
  unique_usernames s →
  (∀ i u, User_authenticate check s name pw = Some (i, u) ↔
          users s !! i = Some u ∧ username u = name ∧
          check (password u) pw = true) ∧
  (User_authenticate check s name pw = None ↔
   ∀ i u, users s !! i = Some u → username u = name →
          check (password u) pw = false) ∧
  ((∀ i u, users s !! i = Some u → username u ≠ name) →
   User_authenticate check s name pw = None).
Proof.
  intros Huniq. unfold User_authenticate.
  destruct (head (filter (λ row : Z * User, username row.2 = name)
                         (map_to_list (users s)))) as [[j v]|] eqn:Hhead.
  - apply head_filter_Some in Hhead as [Hj Hname].
    apply elem_of_map_to_list in Hj. simpl in Hname. simpl.
    assert (Hsame : ∀ i u, users s !! i = Some u → username u = name →
                           i = j ∧ u = v).
    { intros i u Hi Hu.
      assert (i = j) as -> by (eapply Huniq; eauto; congruence).
      split; [done|]. congruence. }
    split_and!.
    + intros i u. destruct (check (password v) pw) eqn:Hc; split.
      * intros Heq. simplify_eq. by split_and!.
      * intros (Hi & Hu & _). by destruct (Hsame i u Hi Hu) as [-> ->].
      * done.
      * intros (Hi & Hu & Hcu). destruct (Hsame i u Hi Hu) as [-> ->].
        congruence.
    + destruct (check (password v) pw) eqn:Hc; split.
      * done.
      * intros Hall. specialize (Hall j v Hj Hname). congruence.
      * intros _ i u Hi Hu. by destruct (Hsame i u Hi Hu) as [-> ->].
      * done.
    + intros Hnone. by destruct (Hnone j v Hj).
  - pose proof (proj1 (head_filter_None _ _) Hhead) as Hnone.
    assert (Hno : ∀ i u, users s !! i = Some u → username u ≠ name).
    { intros i u Hi. apply (Hnone (i, u)). by apply elem_of_map_to_list. }
    split_and!.
    + intros i u. split; [done|]. intros (Hi & Hu & _). by destruct (Hno i u Hi).
    + split; [|done]. intros _ i u Hi Hu. by destruct (Hno i u Hi).
    + done.
Qed.

Lemma NoDup_fmap_inj_on {A B} (f : A → B) (l : list A) (x y : A) :
  NoDup (f <$> l) → x ∈ l → y ∈ l → f x = f y → x = y.
Proof.
  induction l as [|a l IH]; csimpl; [by intros _ ?%elem_of_nil|].
  intros [Ha Hl]%NoDup_cons [->|Hx]%elem_of_cons [->|Hy]%elem_of_cons Hf.
  - done.
  - destruct Ha. rewrite Hf. by apply list_elem_of_fmap_2.
  - destruct Ha. rewrite <-Hf. by apply list_elem_of_fmap_2.
  - by apply IH.
Qed.

(** A check of the unique constraint that can be run on a given store. *)
Lemma unique_usernames_NoDup (s : Store) :
  NoDup ((λ row : Z * User, username row.2) <$> map_to_list (users s)) →
  unique_usernames s.
Proof.
  intros Hnd i j u v Hi Hj Hname.
  apply elem_of_map_to_list in Hi, Hj.
  assert (Heq : (i, u) = (j, v))
    by exact (NoDup_fmap_inj_on _ _ _ _ Hnd Hi Hj Hname).
  by simplify_eq.
Qed.

Lemma authenticate_spec_witness :
  User_authenticate Sample.check Sample.store "user1" "FeL7f23#1"
    = Some (1, Sample.user1) ∧
  User_authenticate Sample.check Sample.store "user1" "invalid password" = None ∧
  User_authenticate Sample.check Sample.store "invalid_username" "FeL7f23#1"
    = None.
Proof.
  assert (Huniq : unique_usernames Sample.store).
  { apply unique_usernames_NoDup. apply (bool_decide_unpack _). vm_compute. exact I. }
  split_and!.
  - apply (authenticate_spec Sample.check Sample.store "user1" "FeL7f23#1" Huniq).
    split_and!; reflexivity.
  - reflexivity.
  - reflexivity.
Defined.

(** ** Following and unfollowing *)

Lemma add_user_to_g_set_follows (f : gset (Z * Z)) (w : World) :
  add_user_to_g (set_db (set_follows f (db w)) w) = add_user_to_g w.
Proof. reflexivity. Qed.

(** A second follow of the same user changes nothing and redirects as the
    first one did. *)
Lemma add_follow_idempotent (v uid : Z) (user : User) (req : Request) (w : World) :
  validate_on_submit req = true →
  add_user_to_g w = Some (uid, user) →
  is_Some (users (db w) !! v) →
  add_follow v req w
    = (redirect ("/users/" +:+ fmt uid +:+ "/following"),
       set_db (set_follows ({[(uid, v)]} ∪ follows (db w)) (db w)) w) ∧
  add_follow v req (add_follow v req w).2
    = (redirect ("/users/" +:+ fmt uid +:+ "/following"), (add_follow v req w).2).
Proof.
  intros Hv Hg [x Hx].
  assert (Hfirst : add_follow v req w
    = (redirect ("/users/" +:+ fmt uid +:+ "/following"),
       set_db (set_follows ({[(uid, v)]} ∪ follows (db w)) (db w)) w)).
  { unfold add_follow. by rewrite Hv, Hg, Hx. }
  split; [exact Hfirst|]. rewrite Hfirst. simpl.
  unfold add_follow. rewrite Hv, add_user_to_g_set_follows, Hg. simpl.
  rewrite Hx. unfold set_db, set_follows. simpl.
  by rewrite (assoc_L (∪)), (idemp_L (∪)).
Qed.

(** Unfollowing a user who is not followed does not reach the commit: the
    removal from the list of followed users raises. *)
Lemma stop_following_absent (v uid : Z) (user : User) (req : Request) (w : World) :
  validate_on_submit req = true →
  add_user_to_g w = Some (uid, user) →
  (uid, v) ∉ follows (db w) →
  stop_following v req w = (raise_ValueError, w).
Proof.
  intros Hv Hg Habs. unfold stop_following. rewrite Hv, Hg. simpl.
  destruct (users (db w) !! v); [|done].
  rewrite bool_decide_eq_false_2; [done|].
  rewrite elem_of_following. by intros [? _].
Qed.

(** C2, at the failing input: user 1 follows user 2 and unfollows twice.
    The first unfollow removes the Follow-edge and redirects to the
    following list of user 1; the second one, with the edge absent, ends in
    an unhandled ValueError (HTTP 500) instead of succeeding with the same
    redirect. *)
Theorem stop_following_twice_raises :
  (stop_following 2 Sample.valid_post Sample.world).1
    = redirect "/users/1/following" ∧
  follows (db (stop_following 2 Sample.valid_post Sample.world).2) = ∅ ∧
  stop_following 2 Sample.valid_post
      (stop_following 2 Sample.valid_post Sample.world).2
    = (raise_ValueError, (stop_following 2 Sample.valid_post Sample.world).2) ∧
  status_code
    (stop_following 2 Sample.valid_post
       (stop_following 2 Sample.valid_post Sample.world).2).1 = 500 ∧
  is_redirect
    (stop_following 2 Sample.valid_post
       (stop_following 2 Sample.valid_post Sample.world).2).1 = false.
Proof.
  assert (Hfol : follows (db (stop_following 2 Sample.valid_post Sample.world).2)
                 = ∅) by (vm_compute; reflexivity).
  assert (Hsecond : stop_following 2 Sample.valid_post
            (stop_following 2 Sample.valid_post Sample.world).2
          = (raise_ValueError,
             (stop_following 2 Sample.valid_post Sample.world).2)).
  { apply (stop_following_absent 2 1 Sample.user1); [reflexivity..|].
    rewrite Hfol. apply not_elem_of_empty. }
  split_and!; [reflexivity | exact Hfol | exact Hsecond | by rewrite Hsecond..].
Qed.

(** * Further properties of the view functions *)

(** ** Session *)

(** The session helpers and the resolution of the current user fit
    together: after [do_login] the next request resolves to the stored row
    of that user, after [do_logout] it is anonymous, also when it follows a
    login, and a second [do_logout] changes nothing. *)
Theorem session_login_logout (uid : Z) (u : User) (w : World) :
  users (db w) !! uid = Some u →
  add_user_to_g (do_login uid w) = Some (uid, u) ∧
  add_user_to_g (do_logout w) = None ∧
  add_user_to_g (do_logout (do_login uid w)) = None ∧
  do_logout (do_logout w) = do_logout w ∧
  db (do_logout (do_login uid w)) = db w.
Proof.
  intros Hu.
  assert (Hout : ∀ w0, session (do_logout w0) !! CURR_USER_KEY = None).
  { intros w0. unfold do_logout.
    destruct (session w0 !! CURR_USER_KEY) eqn:Hk; simpl; [|done].
    apply lookup_delete_eq. }
  assert (Hanon : ∀ w0, add_user_to_g (do_logout w0) = None).
  { intros w0. unfold add_user_to_g. by rewrite Hout. }
  split_and!.
  - unfold add_user_to_g, do_login. simpl. rewrite lookup_insert_eq. simpl.
    by rewrite Hu.
  - apply Hanon.
  - apply Hanon.
  - unfold do_logout at 1. by rewrite Hout.
  - unfold do_logout, do_login. simpl. by rewrite lookup_insert_eq.
Qed.

Lemma session_login_logout_witness :
  add_user_to_g (do_login 2 Sample.anon_world) = Some (2, Sample.user2) ∧
  add_user_to_g (do_logout (do_login 2 Sample.anon_world)) = None.
Proof.
  pose proof (session_login_logout 2 Sample.user2 Sample.anon_world eq_refl)
    as (Hin & _ & Hout & _).
  split; [exact Hin | exact Hout].
Defined.

(** A user that [User_authenticate] returns is a stored row with the given
    username and a hash that verifies the given password. *)
Lemma authenticate_sound (check : string → string → bool) (s : Store)
    (name pw : string) (i : Z) (u : User) :
  User_authenticate check s name pw = Some (i, u) →
  users s !! i = Some u ∧ username u = name ∧ check (password u) pw = true.
Proof.
  unfold User_authenticate.
  destruct (head _) as [[j v]|] eqn:Hhead; [|done]. simpl.
  destruct (check (password v) pw) eqn:Hc; [|done].
  intros Heq. simplify_eq.
  apply head_filter_Some in Hhead as [Hin Hname].
  apply elem_of_map_to_list in Hin. by split_and!.
Qed.

(** ** Login and logout *)

(** [login] never changes the database.  It leaves the session as it was,
    or it stores the id of a row whose username is the submitted one and
    whose hash verifies the submitted password, and then redirects home:
    nobody is logged in without a verifying password. *)
Theorem login_sound (check : string → string → bool) (req : Request) (w : World) :
  db (login check req w).2 = db w ∧
  (session (login check req w).2 = session w ∨
   ∃ uid u,
     validate_on_submit req = true ∧
     users (db w) !! uid = Some u ∧
     username u = f_username req ∧
     check (password u) (f_password req) = true ∧
     session (login check req w).2 = <[CURR_USER_KEY := uid]> (session w) ∧
     add_user_to_g (login check req w).2 = Some (uid, u) ∧
     (login check req w).1 = redirect "/").
Proof.
  unfold login. destruct (validate_on_submit req) eqn:Hv; [|by split; [|left]].
  destruct (User_authenticate _ _ _ _) as [[uid u]|] eqn:Hauth;
    [|by split; [|left]].
  apply authenticate_sound in Hauth as (Hu & Hname & Hc).
  split; [done|]. right. exists uid, u. simpl. split_and!; try done.
  unfold add_user_to_g. simpl. rewrite lookup_insert_eq. simpl. by rewrite Hu.
Qed.

(** A wrong password is answered with the login form again (HTTP 200) and
    the flash "Invalid credentials."; database and session are unchanged. *)
Theorem login_wrong_password (check : string → string → bool)
    (req : Request) (w : World) :
  validate_on_submit req = true →
  (∀ i u, users (db w) !! i = Some u → username u = f_username req →
          check (password u) (f_password req) = false) →
  login check req w
    = (render_template "users/login.html" (CtxForm (login_fields req)),
       flash "Invalid credentials." "danger" w) ∧
  status_code (login check req w).1 = 200 ∧
  session (login check req w).2 = session w.
Proof.
  intros Hv Hbad. unfold login. rewrite Hv.
  destruct (User_authenticate _ _ _ _) as [[uid u]|] eqn:Hauth; [|done].
  apply authenticate_sound in Hauth as (Hu & Hname & Hc).
  rewrite (Hbad uid u Hu Hname) in Hc. done.
Qed.

Lemma login_wrong_password_witness :
  status_code
    (login Sample.check
       (mkRequest true true "" "user1" "invalid password" "" "" "" "" "" 0)
       Sample.anon_world).1 = 200.
Proof.
  refine (proj1 (proj2 (login_wrong_password Sample.check
            (mkRequest true true "" "user1" "invalid password" "" "" "" "" "" 0)
            Sample.anon_world eq_refl _))).
  intros i u Hi Hname. simpl in *.
  apply elem_of_map_to_list in Hi. vm_compute in Hi.
  repeat (apply elem_of_cons in Hi as [Hi|Hi]; [by simplify_eq|]).
  by apply elem_of_nil in Hi.
Defined.

(** A valid logout removes the login key and nothing else: the next request
    is anonymous, the other session keys and the database are untouched, and
    a requester who was not logged in is answered the same way. *)
Theorem logout_clears_session (req : Request) (w : World) :
  validate_on_submit req = true →
  (logout req w).1 = redirect "/" ∧
  session (logout req w).2 !! CURR_USER_KEY = None ∧
  add_user_to_g (logout req w).2 = None ∧
  (∀ k, k ≠ CURR_USER_KEY →
        session (logout req w).2 !! k = session w !! k) ∧
  db (logout req w).2 = db w ∧
  flashes (logout req w).2 = flashes w ++ [("Successfully logged out!", "message")].
Proof.
  intros Hv. unfold logout. rewrite Hv. simpl.
  assert (Hk : session (do_logout w) !! CURR_USER_KEY = None).
  { unfold do_logout. destruct (session w !! CURR_USER_KEY) eqn:Hs; simpl;
      [apply lookup_delete_eq | done]. }
  split_and!; try done.
  - unfold add_user_to_g. simpl. by rewrite Hk.
  - intros k Hne. unfold do_logout.
    destruct (session w !! CURR_USER_KEY); simpl; [|done].
    by apply lookup_delete_ne.
  - unfold do_logout. by destruct (session w !! CURR_USER_KEY).
  - unfold do_logout. by destruct (session w !! CURR_USER_KEY).
Qed.

Lemma logout_clears_session_witness :
  (logout Sample.valid_post Sample.world).1 = redirect "/" ∧
  add_user_to_g (logout Sample.valid_post Sample.world).2 = None.
Proof.
  pose proof (logout_clears_session Sample.valid_post Sample.world eq_refl)
    as (Hr & _ & Hanon & _).
  split; [exact Hr | exact Hanon].
Defined.

(** ** Signup *)

Lemma unique_violation_new_false (us : gmap Z User) (u : User) :
  (∀ i v, us !! i = Some v → username v ≠ username u ∧ email v ≠ email u) →
  unique_violation us None u = false.
Proof.
  intros Hfree. apply not_true_is_false. intros Hviol.
  apply unique_violation_new in Hviol as (i & v & Hi & Hdup).
  destruct (Hfree i v Hi). by destruct Hdup.
Qed.

(** A valid signup with a username and an email that no stored user has
    creates one row under an id that was not in use, keeps every other row,
    stores the hash and not the password, falls back to the default image
    when none is given, logs the new user in and redirects home. *)
Theorem signup_success (hash : string → string)
    (default_image default_header : string) (req : Request) (w : World) :
  validate_on_submit req = true →
  (∀ i v, users (db w) !! i = Some v →
          username v ≠ f_username req ∧ email v ≠ f_email req) →
  ∃ uid row,
    users (db w) !! uid = None ∧
    (signup hash default_image default_header req w).1 = redirect "/" ∧
    users (db (signup hash default_image default_header req w).2)
      = <[uid := row]> (users (db w)) ∧
    (∀ j v, users (db w) !! j = Some v →
       users (db (signup hash default_image default_header req w).2) !! j
         = Some v) ∧
    username row = f_username req ∧
    email row = f_email req ∧
    password row = hash (f_password req) ∧
    image_url row
      = (if decide (f_image_url req = "") then default_image
         else f_image_url req) ∧
    header_image_url row = default_header ∧
    add_user_to_g (signup hash default_image default_header req w).2
      = Some (uid, row) ∧
    messages (db (signup hash default_image default_header req w).2)
      = messages (db w) ∧
    follows (db (signup hash default_image default_header req w).2)
      = follows (db w) ∧
    likes (db (signup hash default_image default_header req w).2)
      = likes (db w) ∧
    flashes (signup hash default_image default_header req w).2 = flashes w.
Proof.
  intros Hv Hfree.
  set (row := User_signup hash default_image default_header (f_username req)
                (f_password req) (f_email req)
                (if decide (f_image_url req = "") then None
                 else Some (f_image_url req))).
  set (uid := fresh (dom (users (db w)))).
  assert (Hnew : users (db w) !! uid = None).
  { apply not_elem_of_dom. apply is_fresh. }
  exists uid, row. unfold signup, commit_new_user. rewrite Hv.
  fold row. rewrite (unique_violation_new_false _ row Hfree). simpl.
  split_and!; try done.
  - intros j v Hj. rewrite lookup_insert_ne; [done|]. intros <-.
    unfold uid in Hnew. congruence.
  - unfold row, User_signup. simpl. by destruct (decide (f_image_url req = "")).
  - unfold add_user_to_g. simpl. rewrite lookup_insert_eq. simpl.
    fold uid. by rewrite lookup_insert_eq.
Qed.

Lemma signup_success_witness :
  (signup Sample.hash Sample.default_image Sample.default_header
     (mkRequest true true "" "unique_username" "123123" "unique@mail.com"
                "" "" "" "" 0)
     Sample.anon_world).1 = redirect "/".
Proof.
  destruct (signup_success Sample.hash Sample.default_image
              Sample.default_header
              (mkRequest true true "" "unique_username" "123123"
                         "unique@mail.com" "" "" "" "" 0)
              Sample.anon_world eq_refl) as (uid & row & _ & Hr & _).
  - intros i v Hi. simpl in *.
    apply elem_of_map_to_list in Hi. vm_compute in Hi.
    repeat (apply elem_of_cons in Hi as [Hi|Hi]; [by simplify_eq|]).
    by apply elem_of_nil in Hi.
  - exact Hr.
Defined.

(** Signup and login compose: when the hash function verifies what it
    hashed, the credentials of a successful signup log the same user in,
    from any session. *)
Theorem signup_then_login (hash : string → string)
    (check : string → string → bool)
    (default_image default_header : string)
    (req req' : Request) (w : World) (sess : gmap string Z) :
  check (hash (f_password req)) (f_password req) = true →
  validate_on_submit req = true →
  validate_on_submit req' = true →
  f_username req' = f_username req →
  f_password req' = f_password req →
  (∀ i v, users (db w) !! i = Some v →
          username v ≠ f_username req ∧ email v ≠ f_email req) →
  ∃ uid row,
    add_user_to_g (signup hash default_image default_header req w).2
      = Some (uid, row) ∧
    (login check req'
       (mkWorld (db (signup hash default_image default_header req w).2) sess [])).1
      = redirect "/" ∧
    add_user_to_g
      (login check req'
         (mkWorld (db (signup hash default_image default_header req w).2) sess [])).2
      = Some (uid, row).
Proof.
  intros Hcheck Hv Hv' Hname Hpw Hfree.
  set (row := User_signup hash default_image default_header (f_username req)
                (f_password req) (f_email req)
                (if decide (f_image_url req = "") then None
                 else Some (f_image_url req))).
  set (uid := fresh (dom (users (db w)))).
  assert (Hsignup : signup hash default_image default_header req w
            = (redirect "/",
               do_login uid
                 (set_db (mkStore (<[uid := row]> (users (db w)))
                            (messages (db w)) (follows (db w)) (likes (db w)))
                    w))).
  { unfold signup, commit_new_user. rewrite Hv. fold row.
    by rewrite (unique_violation_new_false _ row Hfree). }
  rewrite Hsignup. simpl.
  exists uid, row. split.
  { unfold add_user_to_g. simpl. by rewrite !lookup_insert_eq. }
  assert (Hauth : User_authenticate check
                    (mkStore (<[uid := row]> (users (db w))) (messages (db w))
                       (follows (db w)) (likes (db w)))
                    (f_username req') (f_password req') = Some (uid, row)).
  { unfold User_authenticate. simpl.
    destruct (head _) as [[j v]|] eqn:Hhead.
    - apply head_filter_Some in Hhead as [Hin Hjn].
      apply elem_of_map_to_list in Hin. simpl in Hjn.
      destruct (decide (j = uid)) as [->|Hne].
      + rewrite lookup_insert_eq in Hin. simplify_eq. simpl.
        by rewrite Hpw, Hcheck.
      + rewrite lookup_insert_ne in Hin by done.
        destruct (Hfree j v Hin) as [Hbad _]. congruence.
    - pose proof (proj1 (head_filter_None _ _) Hhead (uid, row)) as Hno.
      destruct Hno.
      + apply elem_of_map_to_list. apply lookup_insert_eq.
      + simpl. congruence. }
  unfold login. rewrite Hv'. simpl. rewrite Hauth. simpl.
  split; [done|].
  unfold add_user_to_g. simpl. by rewrite !lookup_insert_eq.
Qed.

Lemma signup_then_login_witness :
  ∃ uid row,
    add_user_to_g
      (login Sample.check
         (mkRequest true true "" "unique_username" "123123" "" "" "" "" "" 0)
         (mkWorld
            (db (signup Sample.hash Sample.default_image Sample.default_header
                   (mkRequest true true "" "unique_username" "123123"
                              "unique@mail.com" "" "" "" "" 0)
                   Sample.anon_world).2) ∅ [])).2
      = Some (uid, row).
Proof.
  destruct (signup_then_login Sample.hash Sample.check Sample.default_image
              Sample.default_header
              (mkRequest true true "" "unique_username" "123123"
                         "unique@mail.com" "" "" "" "" 0)
              (mkRequest true true "" "unique_username" "123123" "" "" "" "" "" 0)
              Sample.anon_world ∅ eq_refl eq_refl eq_refl eq_refl eq_refl)
    as (uid & row & _ & _ & Hg).
  - intros i v Hi. simpl in *.
    apply elem_of_map_to_list in Hi. vm_compute in Hi.
    repeat (apply elem_of_cons in Hi as [Hi|Hi]; [by simplify_eq|]).
    by apply elem_of_nil in Hi.
  - by exists uid, row.
Defined.

(** ** Following *)

Lemma union_difference_singleton_absent (e : Z * Z) (X : gset (Z * Z)) :
  e ∉ X → ({[e]} ∪ X) ∖ {[e]} = X.
Proof.
  intros Habs. apply set_eq. intros x.
  rewrite elem_of_difference, elem_of_union, elem_of_singleton.
  split.
  - intros [[->|Hx] Hne]; [by destruct Hne | done].
  - intros Hx. split; [by right | by intros ->].
Qed.

Lemma world_eta (w : World) :
  mkWorld (mkStore (users (db w)) (messages (db w)) (follows (db w)) (likes (db w)))
          (session w) (flashes w) = w.
Proof. by destruct w as [[] ? ?]. Qed.

(** For a logged-in user a valid follow request answers 404 for an unknown
    id and changes nothing; for a stored user it adds the one Follow-edge
    from the current user and nothing else, so the user appears in the
    current user's following list.  The target may be the current user: a
    self-follow is accepted. *)
Theorem add_follow_contract (v uid : Z) (user : User) (req : Request) (w : World) :
  validate_on_submit req = true →
  add_user_to_g w = Some (uid, user) →
  (users (db w) !! v = None →
   add_follow v req w = (raise_NotFound, w)) ∧
  (is_Some (users (db w) !! v) →
   (add_follow v req w).1 = redirect ("/users/" +:+ fmt uid +:+ "/following") ∧
   (∀ e, e ∈ follows (db (add_follow v req w).2) ↔
         e = (uid, v) ∨ e ∈ follows (db w)) ∧
   v ∈ following (db (add_follow v req w).2) uid ∧
   users (db (add_follow v req w).2) = users (db w) ∧
   messages (db (add_follow v req w).2) = messages (db w) ∧
   likes (db (add_follow v req w).2) = likes (db w) ∧
   session (add_follow v req w).2 = session w ∧
   flashes (add_follow v req w).2 = flashes w) ∧
  (add_follow uid req w).1 = redirect ("/users/" +:+ fmt uid +:+ "/following") ∧
  (uid, uid) ∈ follows (db (add_follow uid req w).2).
Proof.
  intros Hv Hg.
  assert (Hself : users (db w) !! uid = Some user).
  { unfold add_user_to_g in Hg.
    destruct (session w !! CURR_USER_KEY) as [k|]; [|done].
    destruct (users (db w) !! k) eqn:Hk; simpl in Hg; [|done]. by simplify_eq. }
  split_and!.
  - intros Hnone. unfold add_follow. by rewrite Hv, Hg, Hnone.
  - intros [x Hx]. unfold add_follow. rewrite Hv, Hg, Hx. simpl.
    split_and!; try done.
    + intros e. rewrite elem_of_union, elem_of_singleton. tauto.
    + apply elem_of_following. simpl. split; [|by eexists].
      apply elem_of_union_l. by apply elem_of_singleton.
  - unfold add_follow. by rewrite Hv, Hg, Hself.
  - unfold add_follow. rewrite Hv, Hg, Hself. simpl.
    apply elem_of_union_l. by apply elem_of_singleton.
Qed.

Lemma add_follow_contract_witness :
  add_follow 42000 Sample.valid_post Sample.world
    = (raise_NotFound, Sample.world) ∧
  (1, 1) ∈ follows (db (add_follow 1 Sample.valid_post Sample.world).2).
Proof.
  pose proof (add_follow_contract 42000 1 Sample.user1 Sample.valid_post
                Sample.world eq_refl eq_refl) as (Hmissing & _ & _ & Hself).
  split; [by apply Hmissing | exact Hself].
Defined.

(** Follow and unfollow are inverse on a user who was not followed: the
    unfollow that comes after the follow succeeds and gives back the world
    as it was before the follow. *)
Theorem follow_unfollow_roundtrip (v uid : Z) (user : User)
    (req req' : Request) (w : World) :
  validate_on_submit req = true →
  validate_on_submit req' = true →
  add_user_to_g w = Some (uid, user) →
  is_Some (users (db w) !! v) →
  (uid, v) ∉ follows (db w) →
  stop_following v req' (add_follow v req w).2
    = (redirect ("/users/" +:+ fmt uid +:+ "/following"), w).
Proof.
  intros Hv Hv' Hg [x Hx] Habs.
  unfold add_follow. rewrite Hv, Hg, Hx. simpl.
  unfold stop_following.
  rewrite Hv', add_user_to_g_set_follows, Hg. simpl. rewrite Hx.
  rewrite bool_decide_eq_true_2.
  - unfold set_db, set_follows. simpl.
    rewrite (union_difference_singleton_absent _ _ Habs).
    by rewrite world_eta.
  - apply elem_of_following. simpl. split; [|by eexists].
    apply elem_of_union_l. by apply elem_of_singleton.
Qed.

Lemma follow_unfollow_roundtrip_witness :
  stop_following 3 Sample.valid_post
      (add_follow 3 Sample.valid_post Sample.world).2
    = (redirect "/users/1/following", Sample.world).
Proof.
  apply (follow_unfollow_roundtrip 3 1 Sample.user1 Sample.valid_post
           Sample.valid_post Sample.world eq_refl eq_refl eq_refl).
  - by eexists.
  - simpl. rewrite not_elem_of_singleton. discriminate.
Defined.

(** After a successful unfollow of another user the homepage of the current
    user shows no message of that user. *)
Theorem unfollow_hides_messages (v uid : Z) (user : User)
    (req : Request) (w : World) :
  validate_on_submit req = true →
  add_user_to_g w = Some (uid, user) →
  v ∈ following (db w) uid →
  v ≠ uid →
  (stop_following v req w).1 = redirect ("/users/" +:+ fmt uid +:+ "/following") ∧
  follows (db (stop_following v req w).2) = follows (db w) ∖ {[(uid, v)]} ∧
  ∃ msgs,
    homepage (stop_following v req w).2
      = (render_template "home.html" (CtxMessages msgs), (stop_following v req w).2) ∧
    ∀ i m, (i, m) ∈ msgs → user_id m ≠ v.
Proof.
  intros Hv Hg Hfol Hne.
  pose proof (proj1 (elem_of_following _ _ _) Hfol) as [_ [x Hx]].
  unfold stop_following. rewrite Hv, Hg. simpl. rewrite Hx.
  rewrite bool_decide_eq_true_2 by done. simpl.
  split_and!; try done.
  eexists. unfold homepage. rewrite add_user_to_g_set_follows, Hg.
  split; [reflexivity|].
  intros i m Hin Hown. unfold feed in Hin. apply subseteq_take in Hin.
  apply feed_elem_of in Hin as [_ [Hmine|Hstill]]; simpl in *.
  - congruence.
  - apply elem_of_following in Hstill as [Hedge _]. simpl in Hedge.
    apply elem_of_difference in Hedge as [_ Hedge].
    apply Hedge, elem_of_singleton. by rewrite Hown.
Qed.

Lemma unfollow_hides_messages_witness :
  ∃ msgs,
    homepage (stop_following 2 Sample.valid_post Sample.world).2
      = (render_template "home.html" (CtxMessages msgs),
         (stop_following 2 Sample.valid_post Sample.world).2) ∧
    ∀ i m, (i, m) ∈ msgs → user_id m ≠ 2.
Proof.
  refine (proj2 (proj2 (unfollow_hides_messages 2 1 Sample.user1
            Sample.valid_post Sample.world eq_refl eq_refl _ _))).
  - apply (bool_decide_unpack _). vm_compute. exact I.
  - discriminate.
Defined.

(** After a follow the messages of the followed user qualify for the
    homepage of the current user: each of them is listed, unless the list is
    full with 100 messages that are at least as recent. *)
Theorem follow_shows_messages (v uid : Z) (user : User)
    (req : Request) (w : World) :
  validate_on_submit req = true →
  add_user_to_g w = Some (uid, user) →
  is_Some (users (db w) !! v) →
  ∃ msgs,
    homepage (add_follow v req w).2
      = (render_template "home.html" (CtxMessages msgs), (add_follow v req w).2) ∧
    ∀ i m, messages (db w) !! i = Some m → user_id m = v →
      (i, m) ∈ msgs ∨
      (length msgs = 100%nat ∧
       ∀ j m', (j, m') ∈ msgs → timestamp m ≤ timestamp m').
Proof.
  intros Hv Hg [x Hx].
  unfold add_follow. rewrite Hv, Hg, Hx. simpl.
  eexists. unfold homepage. rewrite add_user_to_g_set_follows, Hg.
  split; [reflexivity|].
  intros i m Hm Hown. unfold feed.
  set (s' := set_follows ({[(uid, v)]} ∪ follows (db w)) (db w)).
  set (sorted := merge_sort newer_first
                   (filter (in_feed s' uid) (map_to_list (messages s')))).
  assert (Hsorted : StronglySorted newer_first sorted)
    by apply (StronglySorted_merge_sort newer_first).
  assert (Hin : (i, m) ∈ sorted).
  { apply feed_elem_of. split; [done|]. right. simpl.
    apply elem_of_following. simpl. rewrite Hown. split; [|by eexists].
    apply elem_of_union_l. by apply elem_of_singleton. }
  destruct (take_sorted_cutoff newer_first 100 sorted (i, m) Hsorted Hin)
    as [?|[Hlen Hle]]; [by left|right].
  split; [done|]. intros j m' Hj. exact (Hle (j, m') Hj).
Qed.

Lemma follow_shows_messages_witness :
  ∃ msgs,
    homepage (add_follow 3 Sample.valid_post Sample.world).2
      = (render_template "home.html" (CtxMessages msgs),
         (add_follow 3 Sample.valid_post Sample.world).2) ∧
    ((4, mkMessage "fourth" 40 3) ∈ msgs ∨ length msgs = 100%nat).
Proof.
  destruct (follow_shows_messages 3 1 Sample.user1 Sample.valid_post
              Sample.world eq_refl eq_refl (ex_intro _ Sample.user3 eq_refl))
    as (msgs & Hhome & Hall).
  exists msgs. split; [exact Hhome|].
  destruct (Hall 4 (mkMessage "fourth" 40 3) eq_refl eq_refl) as [?|[? _]];
    [by left | by right].
Defined.

(** ** Messages *)

Lemma add_user_to_g_same_users (s : Store) (w : World) :
  users s = users (db w) →
  add_user_to_g (set_db s w) = add_user_to_g w.
Proof. intros Hu. unfold add_user_to_g. simpl. by rewrite Hu. Qed.

(** For a logged-in user a valid submission of the message form stores one
    message with exactly the submitted text, the current user as owner and
    the server time as timestamp, under an id that was not in use; every
    stored message stays as it is and the other tables are untouched.  A
    submission that does not validate stores nothing and renders the form
    again (HTTP 200). *)
Theorem messages_add_contract (uid : Z) (user : User) (req : Request) (w : World) :
  add_user_to_g w = Some (uid, user) →
  (validate_on_submit req = true →
   ∃ mid,
     messages (db w) !! mid = None ∧
     (messages_add req w).1 = redirect ("/users/" +:+ fmt uid) ∧
     messages (db (messages_add req w).2)
       = <[mid := mkMessage (f_text req) (now req) uid]> (messages (db w)) ∧
     (∀ j m, messages (db w) !! j = Some m →
             messages (db (messages_add req w).2) !! j = Some m) ∧
     users (db (messages_add req w).2) = users (db w) ∧
     follows (db (messages_add req w).2) = follows (db w) ∧
     likes (db (messages_add req w).2) = likes (db w) ∧
     session (messages_add req w).2 = session w ∧
     flashes (messages_add req w).2 = flashes w) ∧
  (validate_on_submit req = false →
   messages_add req w
     = (render_template "messages/new.html" (CtxForm [("text", f_text req)]), w) ∧
   status_code (messages_add req w).1 = 200).
Proof.
  intros Hg. unfold messages_add. rewrite Hg. split; intros Hv; rewrite Hv.
  - exists (fresh (dom (messages (db w)))).
    assert (Hnew : messages (db w) !! fresh (dom (messages (db w))) = None).
    { apply not_elem_of_dom. apply is_fresh. }
    simpl. split_and!; try done.
    intros j m Hj. rewrite lookup_insert_ne; [done|]. intros <-. congruence.
  - done.
Qed.

Lemma messages_add_contract_witness :
  (messages_add Sample.valid_post Sample.world).1 = redirect "/users/1" ∧
  status_code (messages_add Sample.forged_post Sample.world).1 = 200.
Proof.
  pose proof (messages_add_contract 1 Sample.user1 Sample.valid_post
                Sample.world eq_refl) as [Hok _].
  pose proof (messages_add_contract 1 Sample.user1 Sample.forged_post
                Sample.world eq_refl) as [_ Hbad].
  destruct (Hok eq_refl) as (mid & _ & Hr & _).
  split; [exact Hr|]. by apply Hbad.
Defined.

(** Posting and deleting are inverse: the message a user has just posted
    can be shown, and when the same user deletes it the database is what it
    was before the post.  The Like-edges are assumed to reference stored
    messages only. *)
Theorem post_then_destroy_roundtrip (uid : Z) (user : User)
    (req req' : Request) (w : World) :
  validate_on_submit req = true →
  validate_on_submit req' = true →
  add_user_to_g w = Some (uid, user) →
  (∀ a b, (a, b) ∈ likes (db w) → is_Some (messages (db w) !! b)) →
  ∃ mid,
    messages_show mid (messages_add req w).2
      = (render_template "messages/show.html"
           (CtxMessage (mid, mkMessage (f_text req) (now req) uid)),
         (messages_add req w).2) ∧
    messages_destroy mid req' (messages_add req w).2
      = (redirect ("/users/" +:+ fmt uid), w).
Proof.
  intros Hv Hv' Hg Hlikes.
  exists (fresh (dom (messages (db w)))).
  assert (Hnew : messages (db w) !! fresh (dom (messages (db w))) = None).
  { apply not_elem_of_dom. apply is_fresh. }
  unfold messages_add. rewrite Hg, Hv. simpl. split.
  - unfold messages_show. simpl. by rewrite lookup_insert_eq.
  - unfold messages_destroy. rewrite Hv'. simpl.
    rewrite add_user_to_g_same_users by done. rewrite Hg. simpl.
    rewrite lookup_insert_eq. simpl.
    rewrite bool_decide_eq_false_2 by (intros Hne; by apply Hne).
    unfold set_db, delete_message. simpl.
    rewrite delete_insert_id by done.
    assert (Hkeep : filter (λ e : Z * Z, e.2 ≠ fresh (dom (messages (db w))))
                           (likes (db w)) = likes (db w)).
    { apply set_eq. intros [a b]. rewrite elem_of_filter. simpl.
      split; [by intros [_ ?]|]. intros Hab. split; [|done].
      intros ->. destruct (Hlikes _ _ Hab) as [m Hm]. congruence. }
    rewrite Hkeep. by rewrite world_eta.
Qed.

Lemma post_then_destroy_roundtrip_witness :
  ∃ mid,
    messages_destroy mid Sample.valid_post
        (messages_add Sample.valid_post Sample.world).2
      = (redirect "/users/1", Sample.world).
Proof.
  destruct (post_then_destroy_roundtrip 1 Sample.user1 Sample.valid_post
              Sample.valid_post Sample.world eq_refl eq_refl eq_refl)
    as (mid & _ & Hback).
  - intros a b Hab. simpl in Hab. apply elem_of_singleton in Hab.
    simplify_eq. by eexists.
  - by exists mid.
Defined.

(** Once its owner has deleted a message, showing it and deleting it again
    both answer 404, and the second delete changes nothing. *)
Theorem destroy_then_not_found (m uid : Z) (user : User) (msg : Message)
    (req req' : Request) (w : World) :
  validate_on_submit req = true →
  validate_on_submit req' = true →
  add_user_to_g w = Some (uid, user) →
  messages (db w) !! m = Some msg →
  user_id msg = uid →
  messages_show m (messages_destroy m req w).2
    = (raise_NotFound, (messages_destroy m req w).2) ∧
  messages_destroy m req' (messages_destroy m req w).2
    = (raise_NotFound, (messages_destroy m req w).2) ∧
  (∀ j other, j ≠ m → messages (db w) !! j = Some other →
     messages_show j (messages_destroy m req w).2
       = (render_template "messages/show.html" (CtxMessage (j, other)),
          (messages_destroy m req w).2)).
Proof.
  intros Hv Hv' Hg Hm Hown.
  assert (Hfirst : messages_destroy m req w
            = (redirect ("/users/" +:+ fmt uid),
               set_db (delete_message m (db w)) w)).
  { unfold messages_destroy. rewrite Hv, Hg. simpl. rewrite Hm.
    by rewrite bool_decide_eq_false_2 by (intros Hne; by apply Hne). }
  rewrite Hfirst. simpl.
  split_and!.
  - unfold messages_show. simpl. by rewrite lookup_delete_eq.
  - unfold messages_destroy. rewrite Hv'.
    rewrite add_user_to_g_same_users by done. rewrite Hg. simpl.
    by rewrite lookup_delete_eq.
  - intros j other Hne Hj. unfold messages_show. simpl.
    rewrite lookup_delete_ne by done. by rewrite Hj.
Qed.

Lemma destroy_then_not_found_witness :
  status_code
    (messages_show 1 (messages_destroy 1 Sample.valid_post Sample.world).2).1
    = 404.
Proof.
  pose proof (destroy_then_not_found 1 1 Sample.user1
                (mkMessage "Hello World!" 10 1) Sample.valid_post
                Sample.valid_post Sample.world eq_refl eq_refl eq_refl
                eq_refl eq_refl) as (Hshow & _).
  by rewrite Hshow.
Defined.

(** A message posted with a timestamp later than that of every stored
    message is the first entry of the poster's homepage. *)
Theorem newest_post_heads_feed (uid : Z) (user : User) (req : Request) (w : World) :
  validate_on_submit req = true →
  add_user_to_g w = Some (uid, user) →
  (∀ i m, messages (db w) !! i = Some m → timestamp m < now req) →
  ∃ mid rest,
    homepage (messages_add req w).2
      = (render_template "home.html"
           (CtxMessages ((mid, mkMessage (f_text req) (now req) uid) :: rest)),
         (messages_add req w).2).
Proof.
  intros Hv Hg Hold.
  set (mid := fresh (dom (messages (db w)))).
  set (new := mkMessage (f_text req) (now req) uid).
  assert (Hnew : messages (db w) !! mid = None).
  { apply not_elem_of_dom. apply is_fresh. }
  unfold messages_add. rewrite Hg, Hv. simpl.
  unfold homepage. rewrite add_user_to_g_same_users by done. rewrite Hg.
  unfold feed, commit_new_message. simpl. fold mid new.
  set (s' := mkStore (users (db w)) (<[mid := new]> (messages (db w)))
                     (follows (db w)) (likes (db w))).
  set (sorted := merge_sort newer_first
                   (filter (in_feed s' uid)
                      (map_to_list (<[mid := new]> (messages (db w)))))).
  assert (Hsorted : StronglySorted newer_first sorted)
    by apply (StronglySorted_merge_sort newer_first).
  assert (Hin : (mid, new) ∈ sorted).
  { apply (feed_elem_of s' uid (mid, new)). simpl. split.
    - apply lookup_insert_eq.
    - by left. }
  assert (Hmem : ∀ row, row ∈ sorted → row = (mid, new) ∨ timestamp row.2 < now req).
  { intros [j mj] Hj. apply (feed_elem_of s' uid (j, mj)) in Hj as [Hj _].
    simpl in Hj. destruct (decide (j = mid)) as [->|Hne].
    - rewrite lookup_insert_eq in Hj. left. by simplify_eq.
    - rewrite lookup_insert_ne in Hj by done. right. simpl. by eapply Hold. }
  destruct sorted as [|h t] eqn:Hs; [by apply elem_of_nil in Hin|].
  exists mid, (take 99 t). simpl.
  destruct (Hmem h) as [->|Hlt]; [apply list_elem_of_here | done |].
  exfalso.
  apply elem_of_cons in Hin as [Heq|Hin].
  - rewrite <-Heq in Hlt. simpl in Hlt. lia.
  - apply StronglySorted_inv in Hsorted as [_ Hall].
    rewrite List.Forall_forall in Hall.
    apply list_elem_of_In in Hin. specialize (Hall _ Hin).
    unfold newer_first in Hall. simpl in Hall. lia.
Qed.

Lemma newest_post_heads_feed_witness :
  ∃ mid rest,
    homepage (messages_add Sample.valid_post Sample.world).2
      = (render_template "home.html"
           (CtxMessages ((mid, mkMessage "New Message!" 50 1) :: rest)),
         (messages_add Sample.valid_post Sample.world).2).
Proof.
  apply (newest_post_heads_feed 1 Sample.user1 Sample.valid_post Sample.world
           eq_refl eq_refl).
  intros i m Hi. simpl in *.
  apply elem_of_map_to_list in Hi. vm_compute in Hi.
  repeat (apply elem_of_cons in Hi as [Hi|Hi]; [by simplify_eq|]).
  by apply elem_of_nil in Hi.
Defined.

(** ** Likes *)

(** For a logged-in user and a valid form, liking an unknown message answers
    404 and changes nothing; liking a message of another user adds the one
    Like-edge and nothing else and redirects to the callback path; liking it
    a second time leaves the world as the first like left it. *)
Theorem like_message_contract (m uid : Z) (user : User) (req : Request) (w : World) :
  validate_on_submit req = true →
  add_user_to_g w = Some (uid, user) →
  (messages (db w) !! m = None →
   like_message m req w = (raise_NotFound, w)) ∧
  (∀ msg, messages (db w) !! m = Some msg → user_id msg ≠ uid →
   (like_message m req w).1 = redirect (callback req) ∧
   (∀ e, e ∈ likes (db (like_message m req w).2) ↔
         e = (uid, m) ∨ e ∈ likes (db w)) ∧
   users (db (like_message m req w).2) = users (db w) ∧
   messages (db (like_message m req w).2) = messages (db w) ∧
   follows (db (like_message m req w).2) = follows (db w) ∧
   session (like_message m req w).2 = session w ∧
   flashes (like_message m req w).2 = flashes w ∧
   like_message m req (like_message m req w).2
     = (redirect (callback req), (like_message m req w).2)).
Proof.
  intros Hv Hg. split.
  - intros Hnone. unfold like_message. by rewrite Hv, Hg, Hnone.
  - intros msg Hm Hother.
    assert (Hfirst : like_message m req w
              = (redirect (callback req),
                 set_db (set_likes ({[(uid, m)]} ∪ likes (db w)) (db w)) w)).
    { unfold like_message. rewrite Hv, Hg. simpl. rewrite Hm.
      by rewrite bool_decide_eq_false_2 by done. }
    rewrite Hfirst. simpl. split_and!; try done.
    + intros e. rewrite elem_of_union, elem_of_singleton. tauto.
    + unfold like_message. rewrite Hv.
      rewrite add_user_to_g_same_users by done. rewrite Hg. simpl.
      rewrite Hm. rewrite bool_decide_eq_false_2 by done.
      unfold set_db, set_likes. simpl.
      by rewrite (assoc_L (∪)), (idemp_L (∪)).
Qed.

Lemma like_message_contract_witness :
  (like_message 2 Sample.valid_post Sample.world).1 = redirect "/users/2" ∧
  like_message 42000 Sample.valid_post Sample.world
    = (raise_NotFound, Sample.world).
Proof.
  pose proof (like_message_contract 2 1 Sample.user1 Sample.valid_post
                Sample.world eq_refl eq_refl) as [_ Hother].
  pose proof (like_message_contract 42000 1 Sample.user1 Sample.valid_post
                Sample.world eq_refl eq_refl) as [Hmissing _].
  split.
  - apply (Hother (mkMessage "second" 20 2)); [reflexivity | discriminate].
  - by apply Hmissing.
Defined.

(** Like and unlike are inverse on a message the user had not liked: the
    unlike that comes after the like gives back the world as it was. *)
Theorem like_unlike_roundtrip (m uid : Z) (user : User) (msg : Message)
    (req req' : Request) (w : World) :
  validate_on_submit req = true →
  validate_on_submit req' = true →
  add_user_to_g w = Some (uid, user) →
  messages (db w) !! m = Some msg →
  user_id msg ≠ uid →
  (uid, m) ∉ likes (db w) →
  unlike_message m req' (like_message m req w).2 = (redirect (callback req'), w).
Proof.
  intros Hv Hv' Hg Hm Hother Habs.
  unfold like_message. rewrite Hv, Hg. simpl. rewrite Hm.
  rewrite bool_decide_eq_false_2 by done. simpl.
  unfold unlike_message. rewrite Hv'.
  rewrite add_user_to_g_same_users by done. rewrite Hg. simpl.
  unfold set_db, set_likes. simpl.
  rewrite (union_difference_singleton_absent _ _ Habs).
  by rewrite world_eta.
Qed.

Lemma like_unlike_roundtrip_witness :
  unlike_message 2 Sample.valid_post
      (like_message 2 Sample.valid_post Sample.world).2
    = (redirect "/users/2", Sample.world).
Proof.
  apply (like_unlike_roundtrip 2 1 Sample.user1 (mkMessage "second" 20 2)
           Sample.valid_post Sample.valid_post Sample.world
           eq_refl eq_refl eq_refl eq_refl).
  - discriminate.
  - simpl. rewrite not_elem_of_singleton. discriminate.
Defined.

(** ** Deleting the account *)

(** A valid delete-user request of a logged-in user removes that user's row
    and the login key, keeps every other user, and redirects to the signup
    page.  Afterwards no session that still carries the id resolves to a
    user; none of the user's messages and none of the Follow-edges at the
    user remain, while the messages of the other users stay. *)
Theorem delete_user_contract (uid : Z) (user : User) (req : Request) (w : World) :
  validate_on_submit req = true →
  add_user_to_g w = Some (uid, user) →
  (delete_user req w).1 = redirect "/signup" ∧
  users (db (delete_user req w).2) = delete uid (users (db w)) ∧
  (∀ j, j ≠ uid →
     users (db (delete_user req w).2) !! j = users (db w) !! j) ∧
  session (delete_user req w).2 !! CURR_USER_KEY = None ∧
  (∀ sess fl,
     sess !! CURR_USER_KEY = Some uid →
     add_user_to_g (mkWorld (db (delete_user req w).2) sess fl) = None) ∧
  (∀ i m, messages (db (delete_user req w).2) !! i = Some m ↔
          messages (db w) !! i = Some m ∧ user_id m ≠ uid) ∧
  (∀ a b, (a, b) ∈ follows (db (delete_user req w).2) ↔
          (a, b) ∈ follows (db w) ∧ a ≠ uid ∧ b ≠ uid).
Proof.
  intros Hv Hg. unfold delete_user. rewrite Hv, Hg. simpl.
  assert (Hdb : db (do_logout w) = db w).
  { unfold do_logout. by destruct (session w !! CURR_USER_KEY). }
  rewrite Hdb. split_and!; try done.
  - intros j Hne. by apply lookup_delete_ne.
  - unfold do_logout. destruct (session w !! CURR_USER_KEY) eqn:Hk; simpl;
      [apply lookup_delete_eq | done].
  - intros sess fl Hs. unfold add_user_to_g. simpl. rewrite Hs.
    by rewrite lookup_delete_eq.
  - intros i m. by rewrite map_lookup_filter_Some.
  - intros a b. rewrite elem_of_filter. simpl. tauto.
Qed.

Lemma delete_user_contract_witness :
  (delete_user Sample.valid_post Sample.world).1 = redirect "/signup" ∧
  users (db (delete_user Sample.valid_post Sample.world).2) !! 1 = None.
Proof.
  pose proof (delete_user_contract 1 Sample.user1 Sample.valid_post
                Sample.world eq_refl eq_refl) as (Hr & Hu & _).
  split; [exact Hr|]. rewrite Hu. apply lookup_delete_eq.
Defined.

(** Deleting the account revokes its credentials: with unique usernames, no
    password authenticates the deleted user's name afterwards. *)
Theorem delete_user_revokes_login (check : string → string → bool)
    (uid : Z) (user : User) (req : Request) (w : World) (pw : string) :
  unique_usernames (db w) →
  validate_on_submit req = true →
  add_user_to_g w = Some (uid, user) →
  User_authenticate check (db (delete_user req w).2) (username user) pw = None.
Proof.
  intros Huniq Hv Hg.
  assert (Hself : users (db w) !! uid = Some user).
  { unfold add_user_to_g in Hg.
    destruct (session w !! CURR_USER_KEY) as [k|]; [|done].
    destruct (users (db w) !! k) eqn:Hk; simpl in Hg; [|done]. by simplify_eq. }
  destruct (User_authenticate _ _ _ _) as [[i u]|] eqn:Hauth; [|done].
  apply authenticate_sound in Hauth as (Hi & Hname & _).
  unfold delete_user in Hi. rewrite Hv, Hg in Hi. simpl in Hi.
  assert (Hdb : db (do_logout w) = db w).
  { unfold do_logout. by destruct (session w !! CURR_USER_KEY). }
  rewrite Hdb in Hi. apply lookup_delete_Some in Hi as [Hne Hi].
  destruct Hne. symmetry. by apply (Huniq i uid u user).
Qed.

Lemma delete_user_revokes_login_witness :
  User_authenticate Sample.check
    (db (delete_user Sample.valid_post Sample.world).2) "user1" "FeL7f23#1"
    = None.
Proof.
  apply (delete_user_revokes_login Sample.check 1 Sample.user1
           Sample.valid_post Sample.world "FeL7f23#1"); [|reflexivity..].
  apply unique_usernames_NoDup. apply (bool_decide_unpack _).
  vm_compute. exact I.
Defined.

(** ** Editing the profile: the unique constraints *)

Lemma unique_violation_self (us : gmap Z User) (uid : Z) (u : User) :
  unique_violation us (Some uid) u = true ↔
  ∃ j v, us !! j = Some v ∧ j ≠ uid ∧
         (username v = username u ∨ email v = email u).
Proof.
  unfold unique_violation. rewrite existsb_exists. split.
  - intros ([j v] & Hin & Hrow). exists j, v.
    apply list_elem_of_In, elem_of_map_to_list in Hin.
    apply andb_true_iff in Hrow as [Hne Hrow].
    apply bool_decide_eq_true in Hne. simpl in Hne.
    split_and!; [done | congruence |].
    apply orb_true_iff in Hrow as [Hrow|Hrow];
      apply bool_decide_eq_true in Hrow; auto.
  - intros (j & v & Hin & Hne & Hrow). exists (j, v). split.
    + by apply list_elem_of_In, elem_of_map_to_list.
    + apply andb_true_iff. split.
      * apply bool_decide_eq_true. simpl. congruence.
      * apply orb_true_iff.
        destruct Hrow; [left|right]; by apply bool_decide_eq_true.
Qed.

(** An edit that takes the username or the email of another user fails at
    commit: the view ends in an unhandled IntegrityError (HTTP 500) and
    nothing is saved. *)
Theorem profile_collision (check : string → string → bool)
    (default_image default_header : string)
    (uid j : Z) (user other : User) (req : Request) (w : World) :
  add_user_to_g w = Some (uid, user) →
  validate_on_submit req = true →
  is_Some (User_authenticate check (db w) (username user) (f_password req)) →
  users (db w) !! j = Some other →
  j ≠ uid →
  username other = f_username req ∨ email other = f_email req →
  profile check default_image default_header req w = (raise_IntegrityError, w) ∧
  status_code (profile check default_image default_header req w).1 = 500.
Proof.
  intros Hg Hv [row Hauth] Hj Hne Hdup.
  unfold profile, commit_user_update. rewrite Hg, Hv, Hauth.
  rewrite (proj2 (unique_violation_self _ _ _)); [done|].
  exists j, other. by split_and!.
Qed.

Lemma profile_collision_witness :
  profile Sample.check Sample.default_image Sample.default_header
    (mkRequest true true "" "user2" "FeL7f23#1" "new@bar.com" "" "" "" "" 0)
    Sample.world = (raise_IntegrityError, Sample.world).
Proof.
  refine (proj1 (profile_collision Sample.check Sample.default_image
            Sample.default_header 1 2 Sample.user1 Sample.user2
            (mkRequest true true "" "user2" "FeL7f23#1" "new@bar.com" "" "" "" "" 0)
            Sample.world eq_refl eq_refl _ eq_refl _ (or_introl eq_refl))).
  - by eexists.
  - discriminate.
Defined.

(** An edit that keeps the user's own username and email is never taken for
    a collision: with unique usernames and emails it commits. *)
Theorem profile_keeps_own_name (check : string → string → bool)
    (default_image default_header : string)
    (uid : Z) (user : User) (req : Request) (w : World) :
  unique_usernames (db w) →
  unique_emails (db w) →
  add_user_to_g w = Some (uid, user) →
  validate_on_submit req = true →
  is_Some (User_authenticate check (db w) (username user) (f_password req)) →
  f_username req = username user →
  f_email req = email user →
  (profile check default_image default_header req w).1
    = redirect ("/users/" +:+ fmt uid) ∧
  users (db (profile check default_image default_header req w).2)
    = <[uid := edited default_image default_header req user]> (users (db w)).
Proof.
  intros Hun Hue Hg Hv [row Hauth] Hname Hmail.
  assert (Hself : users (db w) !! uid = Some user).
  { unfold add_user_to_g in Hg.
    destruct (session w !! CURR_USER_KEY) as [k|]; [|done].
    destruct (users (db w) !! k) eqn:Hk; simpl in Hg; [|done]. by simplify_eq. }
  unfold profile, commit_user_update. rewrite Hg, Hv, Hauth.
  destruct (unique_violation _ _ _) eqn:Hviol; [|done].
  apply unique_violation_self in Hviol as (j & v & Hj & Hne & Hdup).
  simpl in Hdup. destruct Hne. destruct Hdup as [Hd|Hd].
  - apply (Hun j uid v user Hj Hself). congruence.
  - apply (Hue j uid v user Hj Hself). congruence.
Qed.

Lemma profile_keeps_own_name_witness :
  (profile Sample.check Sample.default_image Sample.default_header
     (mkRequest true true "" "user1" "FeL7f23#1" "foo1@bar.com" "" "" "bio" "" 0)
     Sample.world).1 = redirect "/users/1".
Proof.
  refine (proj1 (profile_keeps_own_name Sample.check Sample.default_image
            Sample.default_header 1 Sample.user1
            (mkRequest true true "" "user1" "FeL7f23#1" "foo1@bar.com" "" ""
                       "bio" "" 0)
            Sample.world _ _ eq_refl eq_refl _ eq_refl eq_refl)).
  - apply unique_usernames_NoDup. apply (bool_decide_unpack _).
    vm_compute. exact I.
  - intros i j u v Hi Hj Hmail. simpl in *.
    apply elem_of_map_to_list in Hi, Hj. vm_compute in Hi, Hj.
    repeat (apply elem_of_cons in Hi as [Hi|Hi];
            [repeat (apply elem_of_cons in Hj as [Hj|Hj]; [by simplify_eq|]);
             by apply elem_of_nil in Hj|]).
    by apply elem_of_nil in Hi.
  - by eexists.
Defined.

(** ** Properties of every route *)

Ltac unfold_views :=
  unfold signup, login, logout, list_users, show_user, show_following,
    show_followers, show_likes, add_follow, stop_following, profile,
    delete_user, messages_add, messages_show, messages_destroy, like_message,
    unlike_message, homepage.

Lemma add_user_to_g_Some (w : World) (uid : Z) (user : User) :
  add_user_to_g w = Some (uid, user) →
  session w !! CURR_USER_KEY = Some uid ∧ users (db w) !! uid = Some user.
Proof.
  unfold add_user_to_g.
  destruct (session w !! CURR_USER_KEY) as [k|]; [|done].
  destruct (users (db w) !! k) eqn:Hk; simpl; [|done].
  intros Heq. by simplify_eq.
Qed.

(** Every write is behind a form that validates on submit: on no route does
    a request whose form is not submitted or does not validate change the
    database or the session. *)
Theorem no_write_without_valid_form (hash : string → string)
    (check : string → string → bool) (default_image default_header : string)
    (like : string → string → bool) (r : Route) (req : Request) (w : World) :
  validate_on_submit req = false →
  db (handle hash check default_image default_header like r req w).2 = db w ∧
  session (handle hash check default_image default_header like r req w).2
    = session w.
Proof.
  intros Hv. destruct r; simpl; unfold_views; rewrite ?Hv; simpl;
    repeat case_match; done.
Qed.

Lemma no_write_without_valid_form_witness :
  db (handle Sample.hash Sample.check Sample.default_image
        Sample.default_header (λ _ _, true) RMessagesAdd Sample.forged_post
        Sample.world).2 = Sample.store.
Proof.
  apply (no_write_without_valid_form Sample.hash Sample.check
           Sample.default_image Sample.default_header (λ _ _, true)
           RMessagesAdd Sample.forged_post Sample.world).
  reflexivity.
Defined.

(** An anonymous requester can change the database through signup only:
    every other route leaves the database as it is, and every route other
    than signup and login leaves the requester anonymous. *)
Theorem anonymous_changes_nothing (hash : string → string)
    (check : string → string → bool) (default_image default_header : string)
    (like : string → string → bool) (r : Route) (req : Request) (w : World) :
  add_user_to_g w = None →
  r ≠ RSignup →
  db (handle hash check default_image default_header like r req w).2 = db w ∧
  (r ≠ RLogin →
   add_user_to_g (handle hash check default_image default_header like r req w).2
     = None).
Proof.
  intros Hg Hr.
  assert (Hout : add_user_to_g (do_logout w) = None ∧ db (do_logout w) = db w).
  { unfold do_logout, add_user_to_g.
    destruct (session w !! CURR_USER_KEY) eqn:Hk; simpl.
    - by rewrite lookup_delete_eq.
    - by rewrite Hk. }
  destruct Hout as [Hout1 Hout2].
  destruct r; simpl; try done; unfold_views; rewrite ?Hg; simpl;
    repeat case_match; simpl; try done.
Qed.

Lemma anonymous_changes_nothing_witness :
  db (handle Sample.hash Sample.check Sample.default_image
        Sample.default_header (λ _ _, true) (RMessagesDestroy 1)
        Sample.valid_post Sample.anon_world).2 = Sample.store.
Proof.
  refine (proj1 (anonymous_changes_nothing Sample.hash Sample.check
            Sample.default_image Sample.default_header (λ _ _, true)
            (RMessagesDestroy 1) Sample.valid_post Sample.anon_world
            eq_refl _)).
  discriminate.
Defined.

(** Only signup, login, logout and delete-user touch the session. *)
Theorem session_frame (hash : string → string)
    (check : string → string → bool) (default_image default_header : string)
    (like : string → string → bool) (r : Route) (req : Request) (w : World) :
  r ≠ RSignup → r ≠ RLogin → r ≠ RLogout → r ≠ RDeleteUser →
  session (handle hash check default_image default_header like r req w).2
    = session w.
Proof.
  intros H1 H2 H3 H4.
  destruct r; simpl; try done; unfold_views; repeat case_match; done.
Qed.

Lemma session_frame_witness :
  session (handle Sample.hash Sample.check Sample.default_image
             Sample.default_header (λ _ _, true) RProfile Sample.valid_post
             Sample.world).2 = {[CURR_USER_KEY := 1]}.
Proof.
  apply (session_frame Sample.hash Sample.check Sample.default_image
           Sample.default_header (λ _ _, true) RProfile Sample.valid_post
           Sample.world); discriminate.
Defined.

(** ** The integrity constraints are kept *)

Lemma integrity_put_user (s : Store) (uid : Z) (u : User) :
  integrity s →
  (∀ j v, users s !! j = Some v → j ≠ uid →
          username v ≠ username u ∧ email v ≠ email u) →
  integrity (mkStore (<[uid := u]> (users s)) (messages s) (follows s) (likes s)).
Proof.
  intros [Hun Hue Hown Hfol Hlik] Hfree.
  assert (Hkeep : ∀ a, is_Some (users s !! a) → is_Some (<[uid := u]> (users s) !! a)).
  { intros a Ha. apply lookup_insert_is_Some'. by right. }
  split; simpl.
  - intros i j a b Hi Hj Hname. simpl in Hi, Hj.
    destruct (decide (i = uid)) as [Hi'|Hi'], (decide (j = uid)) as [Hj'|Hj'].
    + congruence.
    + rewrite Hi', lookup_insert_eq in Hi. rewrite lookup_insert_ne in Hj by done.
      simplify_eq. destruct (Hfree j b Hj Hj') as [Hbad _]. by destruct Hbad.
    + rewrite Hj', lookup_insert_eq in Hj. rewrite lookup_insert_ne in Hi by done.
      simplify_eq. destruct (Hfree i a Hi Hi') as [Hbad _]. by destruct Hbad.
    + rewrite lookup_insert_ne in Hi, Hj by done. by eapply Hun.
  - intros i j a b Hi Hj Hmail. simpl in Hi, Hj.
    destruct (decide (i = uid)) as [Hi'|Hi'], (decide (j = uid)) as [Hj'|Hj'].
    + congruence.
    + rewrite Hi', lookup_insert_eq in Hi. rewrite lookup_insert_ne in Hj by done.
      simplify_eq. destruct (Hfree j b Hj Hj') as [_ Hbad]. by destruct Hbad.
    + rewrite Hj', lookup_insert_eq in Hj. rewrite lookup_insert_ne in Hi by done.
      simplify_eq. destruct (Hfree i a Hi Hi') as [_ Hbad]. by destruct Hbad.
    + rewrite lookup_insert_ne in Hi, Hj by done. by eapply Hue.
  - intros i m Hm. apply Hkeep. by eapply Hown.
  - intros a b Hab. destruct (Hfol a b Hab). split; by apply Hkeep.
  - intros a b Hab. destruct (Hlik a b Hab). split; [by apply Hkeep | done].
Qed.

Lemma integrity_set_follows (s : Store) (f : gset (Z * Z)) :
  integrity s →
  (∀ a b, (a, b) ∈ f → is_Some (users s !! a) ∧ is_Some (users s !! b)) →
  integrity (set_follows f s).
Proof. intros [Hun Hue Hown Hfol Hlik] Hf. by split. Qed.

Lemma integrity_set_likes (s : Store) (l : gset (Z * Z)) :
  integrity s →
  (∀ a b, (a, b) ∈ l → is_Some (users s !! a) ∧ is_Some (messages s !! b)) →
  integrity (set_likes l s).
Proof. intros [Hun Hue Hown Hfol Hlik] Hl. by split. Qed.

Lemma integrity_new_message (s : Store) (m : Message) :
  integrity s →
  is_Some (users s !! user_id m) →
  integrity (commit_new_message m s).2.
Proof.
  intros [Hun Hue Hown Hfol Hlik] Hm. split; simpl; try done.
  - intros i x Hi.
    destruct (decide (i = fresh (dom (messages s)))) as [->|Hne].
    + rewrite lookup_insert_eq in Hi. by simplify_eq.
    + rewrite lookup_insert_ne in Hi by done. by eapply Hown.
  - intros a b Hab. destruct (Hlik a b Hab). split; [done|].
    apply lookup_insert_is_Some'. by right.
Qed.

Lemma integrity_delete_message (s : Store) (mid : Z) :
  integrity s → integrity (delete_message mid s).
Proof.
  intros [Hun Hue Hown Hfol Hlik]. split; simpl; try done.
  - intros i x Hi. apply lookup_delete_Some in Hi as [_ Hi]. by eapply Hown.
  - intros a b Hab. apply elem_of_filter in Hab as [Hne Hab]. simpl in Hne.
    destruct (Hlik a b Hab). split; [done|].
    by rewrite lookup_delete_ne.
Qed.

Lemma integrity_delete_user_row (s : Store) (uid : Z) :
  integrity s → integrity (delete_user_row uid s).
Proof.
  intros [Hun Hue Hown Hfol Hlik].
  assert (Hkeep : ∀ a, a ≠ uid → is_Some (users s !! a) →
                       is_Some (delete uid (users s) !! a)).
  { intros a Ha. by rewrite lookup_delete_ne. }
  split; simpl.
  - intros i j a b Hi Hj. simpl in Hi, Hj.
    apply lookup_delete_Some in Hi as [_ Hi].
    apply lookup_delete_Some in Hj as [_ Hj]. by eapply Hun.
  - intros i j a b Hi Hj. simpl in Hi, Hj.
    apply lookup_delete_Some in Hi as [_ Hi].
    apply lookup_delete_Some in Hj as [_ Hj]. by eapply Hue.
  - intros i m Hi. apply map_lookup_filter_Some in Hi as [Hi Hne]. simpl in Hne.
    apply Hkeep; [done|]. by eapply Hown.
  - intros a b Hab. apply elem_of_filter in Hab as [[Ha Hb] Hab]. simpl in *.
    destruct (Hfol a b Hab). split; by apply Hkeep.
  - intros a b Hab. apply elem_of_filter in Hab as [[Ha Hb] Hab]. simpl in *.
    destruct (Hlik a b Hab). split; [by apply Hkeep | done].
Qed.

Lemma unique_violation_false (us : gmap Z User) (self : option Z) (u : User) :
  unique_violation us self u = false →
  ∀ j v, us !! j = Some v → Some j ≠ self →
         username v ≠ username u ∧ email v ≠ email u.
Proof.
  unfold unique_violation. intros Hno j v Hj Hne.
  assert (Hrow : (bool_decide (Some j ≠ self) &&
                  (bool_decide (username v = username u) ||
                   bool_decide (email v = email u))) = false).
  { destruct (_ && _) eqn:Hrow; [|done].
    assert (Hex : existsb (λ row : Z * User,
                bool_decide (Some row.1 ≠ self) &&
                (bool_decide (username row.2 = username u) ||
                 bool_decide (email row.2 = email u)))
              (map_to_list us) = true).
    { apply existsb_exists. exists (j, v). split; [|done].
      by apply list_elem_of_In, elem_of_map_to_list. }
    congruence. }
  rewrite bool_decide_eq_true_2 in Hrow by done. simpl in Hrow.
  apply orb_false_iff in Hrow as [H1 H2].
  apply bool_decide_eq_false in H1, H2. done.
Qed.

(** In a database that satisfies the constraints of the schema (unique
    usernames and emails, every foreign key of a message, a Follow-edge and a
    Like-edge pointing at a stored row), every route leaves a database that
    satisfies them: no view writes a dangling reference or a duplicate
    name. *)
Theorem integrity_preserved (hash : string → string)
    (check : string → string → bool) (default_image default_header : string)
    (like : string → string → bool) (r : Route) (req : Request) (w : World) :
  integrity (db w) →
  integrity (db (handle hash check default_image default_header like r req w).2).
Proof.
  intros Hint.
  assert (Hdb : db (do_logout w) = db w).
  { unfold do_logout. by destruct (session w !! CURR_USER_KEY). }
  destruct r; simpl; unfold_views;
    repeat match goal with
           | |- context [add_user_to_g w] =>
               let Hg := fresh "Hg" in
               destruct (add_user_to_g w) as [[? ?]|] eqn:Hg;
               [apply add_user_to_g_Some in Hg as [? ?]|]
           | |- context [match ?x with _ => _ end] =>
               let Hc := fresh "Hc" in destruct x eqn:Hc
           end; simpl; rewrite ?Hdb; try done.
  - (* signup *)
    unfold commit_new_user in *. case_match; simplify_eq. simpl.
    apply integrity_put_user; [done|]. intros j v Hj _.
    by eapply unique_violation_false.
  - (* add_follow *)
    apply integrity_set_follows; [done|]. intros a b Hab.
    apply elem_of_union in Hab as [Hab|Hab]; [|by apply (int_follows _ Hint)].
    apply elem_of_singleton in Hab. simplify_eq. by split; eexists.
  - (* stop_following *)
    apply integrity_set_follows; [done|]. intros a b Hab.
    apply elem_of_difference in Hab as [Hab _]. by apply (int_follows _ Hint).
  - (* profile *)
    unfold commit_user_update in *. case_match; simplify_eq. simpl.
    apply integrity_put_user; [done|]. intros j v Hj Hne.
    eapply unique_violation_false; [done..|]. congruence.
  - (* delete_user *)
    by apply integrity_delete_user_row.
  - (* messages_add *)
    apply integrity_new_message; [done|]. simpl. by eexists.
  - (* messages_destroy *)
    by apply integrity_delete_message.
  - (* like_message *)
    apply integrity_set_likes; [done|]. intros a b Hab.
    apply elem_of_union in Hab as [Hab|Hab]; [|by apply (int_likes _ Hint)].
    apply elem_of_singleton in Hab. simplify_eq. by split; eexists.
  - (* unlike_message *)
    apply integrity_set_likes; [done|]. intros a b Hab.
    apply elem_of_difference in Hab as [Hab _]. by apply (int_likes _ Hint).
Qed.

Lemma unique_emails_NoDup (s : Store) :
  NoDup ((λ row : Z * User, email row.2) <$> map_to_list (users s)) →
  unique_emails s.
Proof.
  intros Hnd i j u v Hi Hj Hmail.
  apply elem_of_map_to_list in Hi, Hj.
  assert (Heq : (i, u) = (j, v))
    by exact (NoDup_fmap_inj_on _ _ _ _ Hnd Hi Hj Hmail).
  by simplify_eq.
Qed.

(** The constraints can be checked by running them on a given store. *)
Lemma integrity_check (s : Store) :
  NoDup ((λ row : Z * User, username row.2) <$> map_to_list (users s)) →
  NoDup ((λ row : Z * User, email row.2) <$> map_to_list (users s)) →
  map_Forall (λ _ m, is_Some (users s !! user_id m)) (messages s) →
  set_Forall (λ e : Z * Z, is_Some (users s !! e.1) ∧ is_Some (users s !! e.2))
             (follows s) →
  set_Forall (λ e : Z * Z, is_Some (users s !! e.1) ∧ is_Some (messages s !! e.2))
             (likes s) →
  integrity s.
Proof.
  intros Hun Hue Hown Hfol Hlik. split.
  - by apply unique_usernames_NoDup.
  - by apply unique_emails_NoDup.
  - intros i m Hm. exact (Hown i m Hm).
  - intros a b Hab. exact (Hfol (a, b) Hab).
  - intros a b Hab. exact (Hlik (a, b) Hab).
Qed.

Lemma sample_integrity : integrity Sample.store.
Proof.
  apply integrity_check; apply (bool_decide_unpack _); vm_compute; exact I.
Qed.

Lemma integrity_preserved_witness :
  integrity
    (db (handle Sample.hash Sample.check Sample.default_image
           Sample.default_header (λ _ _, true) RDeleteUser Sample.valid_post
           Sample.world).2).
Proof.
  apply (integrity_preserved Sample.hash Sample.check Sample.default_image
           Sample.default_header (λ _ _, true) RDeleteUser Sample.valid_post
           Sample.world).
  exact sample_integrity.
Defined.

(** ** Nobody likes a message of their own *)

Lemma no_own_likes_sub (s s' : Store) :
  (∀ e, e ∈ likes s' → e ∈ likes s) →
  (∀ i m, messages s' !! i = Some m → messages s !! i = Some m) →
  no_own_likes s → no_own_likes s'.
Proof.
  intros Hl Hm Hno a b m Hab Hb. apply (Hno a b m); [by apply Hl | by apply Hm].
Qed.

(** In a database that satisfies the constraints of the schema and in which
    no user likes a message of their own, no route produces such a
    Like-edge. *)
Theorem no_own_likes_preserved (hash : string → string)
    (check : string → string → bool) (default_image default_header : string)
    (like : string → string → bool) (r : Route) (req : Request) (w : World) :
  integrity (db w) →
  no_own_likes (db w) →
  no_own_likes (db (handle hash check default_image default_header like r req w).2).
Proof.
  intros Hint Hno.
  assert (Hdb : db (do_logout w) = db w).
  { unfold do_logout. by destruct (session w !! CURR_USER_KEY). }
  destruct r; simpl; unfold_views;
    repeat match goal with
           | |- context [add_user_to_g w] =>
               let Hg := fresh "Hg" in
               destruct (add_user_to_g w) as [[? ?]|] eqn:Hg;
               [apply add_user_to_g_Some in Hg as [? ?]|]
           | |- context [match ?x with _ => _ end] =>
               let Hc := fresh "Hc" in destruct x eqn:Hc
           end; simpl; rewrite ?Hdb; try done.
  - (* signup *)
    unfold commit_new_user in *. case_match; simplify_eq.
    apply (no_own_likes_sub (db w)); simpl; auto.
  - (* profile *)
    unfold commit_user_update in *. case_match; simplify_eq.
    apply (no_own_likes_sub (db w)); simpl; auto.
  - (* delete_user *)
    apply (no_own_likes_sub (db w)); [| |done]; simpl.
    + intros e He. by apply elem_of_filter in He as [_ He].
    + intros i msg Hi. by apply map_lookup_filter_Some in Hi as [Hi _].
  - (* messages_add *)
    intros a b msg Hab Hb. simpl in *.
    destruct (decide (b = fresh (dom (messages (db w))))) as [->|Hne].
    + destruct (int_likes _ Hint a _ Hab) as [_ [x Hx]].
      assert (Hnew : messages (db w) !! fresh (dom (messages (db w))) = None).
      { apply not_elem_of_dom. apply is_fresh. }
      congruence.
    + rewrite lookup_insert_ne in Hb by done. by apply (Hno a b msg).
  - (* messages_destroy *)
    apply (no_own_likes_sub (db w)); [| |done]; simpl.
    + intros e He. by apply elem_of_filter in He as [_ He].
    + intros i msg Hi. by apply lookup_delete_Some in Hi as [_ Hi].
  - (* like_message *)
    intros a b msg Hab Hb. simpl in *.
    apply elem_of_union in Hab as [Hab|Hab]; [|by apply (Hno a b msg)].
    apply elem_of_singleton in Hab.
    match goal with
    | H : bool_decide (user_id _ = _) = false |- _ =>
        apply bool_decide_eq_false in H
    end.
    by simplify_eq.
  - (* unlike_message *)
    apply (no_own_likes_sub (db w)); [| |done]; simpl.
    + intros e He. by apply elem_of_difference in He as [He _].
    + done.
Qed.

Lemma sample_no_own_likes : no_own_likes Sample.store.
Proof.
  intros a b m Hab Hb. simpl in Hab. apply elem_of_singleton in Hab.
  simplify_eq. vm_compute in Hb. by simplify_eq.
Qed.

Lemma no_own_likes_preserved_witness :
  no_own_likes
    (db (handle Sample.hash Sample.check Sample.default_image
           Sample.default_header (λ _ _, true) (RLikeMessage 2)
           Sample.valid_post Sample.world).2).
Proof.
  apply (no_own_likes_preserved Sample.hash Sample.check Sample.default_image
           Sample.default_header (λ _ _, true) (RLikeMessage 2)
           Sample.valid_post Sample.world).
  - exact sample_integrity.
  - exact sample_no_own_likes.
Defined.

(** ** Anonymous requesters and unknown ids *)

(** An anonymous requester is turned away before the view looks at the URL
    argument or at the submitted data: every login-gated route redirects
    home with the flash "Access unauthorized.", whatever id was asked for,
    while the profile route raises Unauthorized (HTTP 401) instead. *)
Theorem anonymous_is_turned_away (hash : string → string)
    (check : string → string → bool) (default_image default_header : string)
    (like : string → string → bool) (r : Route) (req : Request) (w : World) :
  add_user_to_g w = None →
  validate_on_submit req = true →
  (login_required r = true →
   handle hash check default_image default_header like r req w
     = (redirect "/", flash "Access unauthorized." "danger" w)) ∧
  (r = RProfile →
   handle hash check default_image default_header like r req w
     = (raise_Unauthorized, w)).
Proof.
  intros Hg Hv. split.
  - destruct r; simpl; try done; intros _; unfold_views; by rewrite ?Hv, ?Hg.
  - intros ->. simpl. unfold profile. by rewrite Hg.
Qed.

Lemma anonymous_is_turned_away_witness :
  handle Sample.hash Sample.check Sample.default_image Sample.default_header
    (λ _ _, true) (RShowLikes 42000) Sample.valid_post Sample.anon_world
    = (redirect "/", flash "Access unauthorized." "danger" Sample.anon_world) ∧
  status_code
    (handle Sample.hash Sample.check Sample.default_image Sample.default_header
       (λ _ _, true) RProfile Sample.valid_post Sample.anon_world).1 = 401.
Proof.
  pose proof (anonymous_is_turned_away Sample.hash Sample.check
                Sample.default_image Sample.default_header (λ _ _, true)
                (RShowLikes 42000) Sample.valid_post Sample.anon_world
                eq_refl eq_refl) as [Hgated _].
  pose proof (anonymous_is_turned_away Sample.hash Sample.check
                Sample.default_image Sample.default_header (λ _ _, true)
                RProfile Sample.valid_post Sample.anon_world
                eq_refl eq_refl) as [_ Hprofile].
  split; [by apply Hgated | by rewrite Hprofile].
Defined.

(** For a logged-in requester with a valid form, every route that looks its
    argument up with [get_or_404] answers 404 for an unknown id and leaves
    the world as it is. *)
Theorem unknown_id_is_not_found (hash : string → string)
    (check : string → string → bool) (default_image default_header : string)
    (like : string → string → bool) (r : Route) (req : Request) (w : World)
    (uid : Z) (user : User) :
  add_user_to_g w = Some (uid, user) →
  validate_on_submit req = true →
  missing_target (db w) r = true →
  handle hash check default_image default_header like r req w
    = (raise_NotFound, w) ∧
  status_code (handle hash check default_image default_header like r req w).1
    = 404.
Proof.
  intros Hg Hv Hmiss.
  destruct r; simpl in Hmiss; try done;
    apply bool_decide_eq_true in Hmiss; simpl; unfold_views;
    by rewrite ?Hv, ?Hg, ?Hmiss.
Qed.

Lemma unknown_id_is_not_found_witness :
  status_code
    (handle Sample.hash Sample.check Sample.default_image Sample.default_header
       (λ _ _, true) (RMessagesDestroy 420000) Sample.valid_post
       Sample.world).1 = 404.
Proof.
  apply (unknown_id_is_not_found Sample.hash Sample.check Sample.default_image
           Sample.default_header (λ _ _, true) (RMessagesDestroy 420000)
           Sample.valid_post Sample.world 1 Sample.user1);
    reflexivity.
Defined.

(** The user list never changes the world and lists stored rows only; a
    missing and an empty search string both list every user, without a
    pattern match. *)
Theorem list_users_contract (like : string → string → bool)
    (search : option string) (w : World) :
  (list_users like search w).2 = w ∧
  (∃ us, (list_users like search w).1
           = render_template "users/index.html" (CtxUsers us) ∧
         NoDup us ∧
         (∀ i u, (i, u) ∈ us → users (db w) !! i = Some u) ∧
         (search = None ∨ search = Some "" →
          ∀ i u, users (db w) !! i = Some u → (i, u) ∈ us) ∧
         (∀ q, search = Some q → q ≠ "" →
          ∀ i u, (i, u) ∈ us ↔
                 users (db w) !! i = Some u ∧
                 like (username u) ("%" +:+ q +:+ "%") = true)).
Proof.
  unfold list_users. destruct search as [q|]; [destruct (decide (q = ""))|];
    simpl; (split; [done|]); eexists; (split; [reflexivity|]).
  - split_and!.
    + apply NoDup_map_to_list.
    + intros i u. by rewrite elem_of_map_to_list.
    + intros _ i u. by rewrite elem_of_map_to_list.
    + intros q' Hq Hne. by simplify_eq.
  - split_and!.
    + apply NoDup_filter, NoDup_map_to_list.
    + intros i u Hin. apply list_elem_of_filter in Hin as [_ Hin].
      by apply elem_of_map_to_list.
    + intros [Hs|Hs]; by simplify_eq.
    + intros q' Hq Hne i u. simplify_eq.
      rewrite list_elem_of_filter, elem_of_map_to_list. simpl. tauto.
  - split_and!.
    + apply NoDup_map_to_list.
    + intros i u. by rewrite elem_of_map_to_list.
    + intros _ i u. by rewrite elem_of_map_to_list.
    + intros q' Hq. done.
Qed.

(** ** The default image through an edit *)

(** A committed edit that leaves the image field blank stores the default
    image, and the edit form rendered next (a request that is not a
    submission) shows the field blank again, with the username, email and
    bio that were saved. *)
Theorem profile_blank_image_roundtrip (check : string → string → bool)
    (default_image default_header : string)
    (uid : Z) (user : User) (req req' : Request) (w : World) :
  add_user_to_g w = Some (uid, user) →
  validate_on_submit req = true →
  f_image_url req = "" →
  (profile check default_image default_header req w).1
    = redirect ("/users/" +:+ fmt uid) →
  is_submitted req' = false →
  ∃ saved fields,
    users (db (profile check default_image default_header req w).2) !! uid
      = Some saved ∧
    image_url saved = default_image ∧
    profile check default_image default_header req'
        (profile check default_image default_header req w).2
      = (render_template "users/edit.html" (CtxForm fields),
         (profile check default_image default_header req w).2) ∧
    ("image_url", "") ∈ fields ∧
    ("username", f_username req) ∈ fields ∧
    ("email", f_email req) ∈ fields ∧
    ("bio", f_bio req) ∈ fields.
Proof.
  intros Hg Hv Hblank Hok Hget.
  pose proof (add_user_to_g_Some _ _ _ Hg) as [Hsess Hself].
  unfold profile in Hok |- *. rewrite Hg, Hv in Hok |- *.
  destruct (User_authenticate _ _ _ _) as [row|]; [|by simplify_eq].
  destruct (commit_user_update _ _ _) as [s'|] eqn:Hc; [|by simplify_eq].
  apply commit_user_update_Some in Hc as (Hu & _). simpl.
  set (saved := edited default_image default_header req user) in *.
  assert (Hsaved : users s' !! uid = Some saved)
    by (rewrite Hu; apply lookup_insert_eq).
  assert (Hg' : add_user_to_g (set_db s' w) = Some (uid, saved)).
  { unfold add_user_to_g. simpl. rewrite Hsess. by rewrite Hsaved. }
  assert (Himg : image_url saved = default_image).
  { unfold saved, edited. simpl. rewrite Hblank. done. }
  exists saved, (edit_fields default_image default_header req' saved).
  rewrite Hg'. unfold validate_on_submit. rewrite Hget. simpl.
  split_and!; try done; unfold edit_fields; rewrite Hget, ?Himg; simpl.
  - rewrite decide_True by done. set_solver.
  - set_solver.
  - set_solver.
  - set_solver.
Qed.

Lemma profile_blank_image_roundtrip_witness :
  ∃ saved fields,
    users (db (profile Sample.check Sample.default_image Sample.default_header
                 Sample.valid_post Sample.world).2) !! 1 = Some saved ∧
    image_url saved = Sample.default_image ∧
    profile Sample.check Sample.default_image Sample.default_header
        (mkRequest false false "" "" "" "" "" "" "" "" 0)
        (profile Sample.check Sample.default_image Sample.default_header
           Sample.valid_post Sample.world).2
      = (render_template "users/edit.html" (CtxForm fields),
         (profile Sample.check Sample.default_image Sample.default_header
            Sample.valid_post Sample.world).2) ∧
    ("image_url", "") ∈ fields.
Proof.
  destruct (profile_blank_image_roundtrip Sample.check Sample.default_image
              Sample.default_header 1 Sample.user1 Sample.valid_post
              (mkRequest false false "" "" "" "" "" "" "" "" 0) Sample.world
              eq_refl eq_refl eq_refl eq_refl eq_refl)
    as (saved & fields & Hs & Hi & Hp & Hf & _).
  by exists saved, fields.
Defined.
